(** * Tracing instrumentation of psycopg2

    A shallow embedding of
    [opentelemetry/instrumentation/psycopg2/__init__.py]:

    - the statement extractor ([CursorTracer.get_operation_name] and
      [CursorTracer.get_statement]);
    - the construction of traced cursor factories ([_new_cursor_factory]);
    - the connection interceptor ([DatabaseApiIntegration.wrapped_connection],
      [Psycopg2Instrumentor.instrument_connection] and
      [Psycopg2Instrumentor.uninstrument_connection]).

    Python objects that are mutated in place (connections) or created with a
    fresh identity (classes, integration contexts) live in a heap and are
    referred to by location; calls that touch them are written in a state and
    exception monad over that heap. *)

From Stdlib Require Import ZArith Ascii String DecimalString.
From stdpp Require Import gmap strings list fin_maps.

Local Open Scope Z_scope.

(** ** Outcomes of Python calls *)

Inductive exn :=
  | TypeError
  | ValueError
  | KeyError
  | IndexError
  | AttributeError
  | ZeroDivisionError
  | LibraryError (name : string).

Inductive result (A : Type) :=
  | Return (a : A)
  | Raise (e : exn).
Arguments Return {A} a.
Arguments Raise {A} e.

#[global] Instance result_ret : MRet result := @Return.
#[global] Instance result_bind : MBind result := λ A B f r,
  match r with
  | Return a => f a
  | Raise e => Raise e
  end.
#[global] Instance result_fmap : FMap result := λ A B f r,
  match r with
  | Return a => Return (f a)
  | Raise e => Raise e
  end.

Definition returns {A} (r : result A) : Prop := ∃ a, r = Return a.

(** ** Python values *)

(** Identity of a heap object. *)
Definition loc := positive.

(** [psycopg2.sql.Composed] belongs to the client library.  The
    instrumentation only ever calls its [as_string(context)] method, so a
    composed statement is represented by that method; the rendering context is
    the cursor the statement is executed on. *)
Record Composed := { as_string : loc → result string }.

#[local] Unset Elimination Schemes.
Inductive value :=
  | VNone
  | VBool (b : bool)
  | VInt (n : Z)
  | VStr (s : string)
  | VTuple (xs : list value)
  | VList (xs : list value)
  | VDict (kvs : list (string * value))
  | VComposed (c : Composed)
  | VPgCursor
  | VRef (l : loc).
#[local] Set Elimination Schemes.

(** Text is a sequence of code points below 256; dictionaries have text keys
    and keep insertion order; [VPgCursor] is the class
    [psycopg2.extensions.cursor]; [VRef] refers to a connection, a class or an
    integration context in the heap. *)

(** [isinstance(v, Composed)] and [isinstance(v, str)]. *)
Definition is_composed (v : value) : bool :=
  match v with VComposed _ => true | _ => false end.
Definition is_str (v : value) : bool :=
  match v with VStr _ => true | _ => false end.

(** Truth value of an object ([if x:], [not x], [x or y]).  The heap objects
    of this development define neither [__bool__] nor [__len__]. *)
Definition truthy (v : value) : bool :=
  match v with
  | VNone => false
  | VBool b => b
  | VInt n => negb (n =? 0)
  | VStr s => negb (String.eqb s "")
  | VTuple xs | VList xs => match xs with [] => false | _ => true end
  | VDict kvs => match kvs with [] => false | _ => true end
  | VComposed _ | VPgCursor | VRef _ => true
  end.

(** [len(v)]. *)
Definition py_len (v : value) : result nat :=
  match v with
  | VStr s => Return (String.length s)
  | VTuple xs | VList xs => Return (length xs)
  | VDict kvs => Return (length kvs)
  | VNone | VBool _ | VInt _ | VComposed _ | VPgCursor | VRef _ => Raise TypeError
  end.

(** ** [str.split()] *)

(** [str.isspace] on one code point below 256. *)
Definition isspace (c : ascii) : bool :=
  let n := N_of_ascii c in
  ((9 <=? n) && (n <=? 13) || (28 <=? n) && (n <=? 32)
   || (n =? 133) || (n =? 160))%N.

(** [split_from tok s] scans [s] with the characters of the token that is
    being read in [tok]; a token ends at a white-space character or at the end
    of the text, and empty tokens are never produced. *)
Fixpoint split_from (tok s : string) : list string :=
  match s with
  | EmptyString => match tok with EmptyString => [] | _ => [tok] end
  | String c s' =>
      if isspace c then
        match tok with
        | EmptyString => split_from "" s'
        | _ => tok :: split_from "" s'
        end
      else split_from (tok +:+ String c "") s'
  end.

Definition split (s : string) : list string := split_from "" s.

(** ** Printf-style formatting: [format % values] *)

(** [str(v)] and [repr(v)] for the values whose text is determined by the
    value alone: [None] when the text needs escaping or depends on the object
    (a composed statement, a class, an object in the heap). *)
Definition plain_char (c : ascii) : bool :=
  let n := N_of_ascii c in
  ((32 <=? n) && (n <=? 126) && negb (n =? 39) && negb (n =? 92))%N.

Fixpoint plain_text (s : string) : bool :=
  match s with
  | EmptyString => true
  | String c s' => plain_char c && plain_text s'
  end.

Definition decimal (n : Z) : string := NilZero.string_of_int (Z.to_int n).

Definition repr_str (s : string) : option string :=
  if plain_text s then Some ("'" +:+ s +:+ "'")%string else None.

Fixpoint join (sep : string) (items : list string) : string :=
  match items with
  | [] => ""
  | [x] => x
  | x :: rest => x +:+ sep +:+ join sep rest
  end.

Fixpoint py_repr (v : value) : option string :=
  match v with
  | VNone => Some "None"%string
  | VBool b => Some (if b then "True" else "False")%string
  | VInt n => Some (decimal n)
  | VStr s => repr_str s
  | VTuple xs =>
      items ← mapM py_repr xs;
      Some (match items with
            | [x] => "(" +:+ x +:+ ",)"
            | _ => "(" +:+ join ", " items +:+ ")"
            end)%string
  | VList xs =>
      items ← mapM py_repr xs;
      Some ("[" +:+ join ", " items +:+ "]")%string
  | VDict kvs =>
      items ← mapM (λ kv, k ← repr_str kv.1; x ← py_repr kv.2;
                          Some (k +:+ ": " +:+ x)%string) kvs;
      Some ("{" +:+ join ", " items +:+ "}")%string
  | VComposed _ | VPgCursor | VRef _ => None
  end.

Definition py_str (v : value) : option string :=
  match v with
  | VStr s => Some s
  | _ => py_repr v
  end.

(** [bool] is a subclass of [int]. *)
Definition as_int (v : value) : option Z :=
  match v with
  | VInt n => Some n
  | VBool b => Some (if b then 1 else 0)
  | _ => None
  end.

(** The mapping consulted by [%(key)s]: every object with a subscript
    operation other than a tuple or a text. *)
Definition format_mapping (values : value) : option value :=
  match values with
  | VList _ | VDict _ => Some values
  | _ => None
  end.

Fixpoint dict_get (kvs : list (string * value)) (key : string) : option value :=
  match kvs with
  | [] => None
  | (k, v) :: rest => if String.eqb k key then Some v else dict_get rest key
  end.

(** [mapping[key]] for a text [key]. *)
Definition subscript (mapping : value) (key : string) : result value :=
  match mapping with
  | VDict kvs => match dict_get kvs key with
                 | Some v => Return v
                 | None => Raise KeyError
                 end
  | _ => Raise TypeError
  end.

(** The formatter reads the format one character at a time. *)
Inductive format_mode :=
  | Text                              (* outside a conversion specifier *)
  | Spec (after_key : bool)           (* after [%], or after [%(key)] *)
  | Key (depth : nat) (key : string). (* inside the parentheses of a key *)

(** One conversion.  [None]: the conversion is not computed here. *)
Definition convert (c : ascii) (v : value) : option (result string) :=
  match c with
  | "s"%char => Return <$> py_str v
  | "r"%char => Return <$> py_repr v
  | "d"%char | "i"%char | "u"%char =>
      Some (match as_int v with
            | Some n => Return (decimal n)
            | None => Raise TypeError
            end)
  | "a"%char | "c"%char | "o"%char | "x"%char | "X"%char
  | "e"%char | "E"%char | "f"%char | "F"%char | "g"%char | "G"%char => None
  | _ => Some (Raise ValueError)
  end.

(** Flags, width, precision and length modifiers are not computed here. *)
Definition is_modifier (c : ascii) : bool :=
  match c with
  | "-"%char | "+"%char | " "%char | "#"%char | "*"%char | "."%char
  | "h"%char | "l"%char | "L"%char => true
  | _ => let n := N_of_ascii c in ((48 <=? n) && (n <=? 57))%N
  end.

(** [format_from mode fmt pending mapping out]: [pending] are the arguments
    that are still to be consumed, [out] is the text produced so far.  The
    result is [None] when the format uses a feature that is not computed
    here. *)
Fixpoint format_from (mode : format_mode) (fmt : string) (pending : list value)
    (mapping : option value) (out : string) : option (result string) :=
  match fmt with
  | EmptyString =>
      match mode with
      | Text =>
          match pending, mapping with
          | _ :: _, None => Some (Raise TypeError)
          | _, _ => Some (Return out)
          end
      | Spec _ | Key _ _ => Some (Raise ValueError)
      end
  | String c fmt' =>
      match mode with
      | Text =>
          if Ascii.eqb c "%" then format_from (Spec false) fmt' pending mapping out
          else format_from Text fmt' pending mapping (out +:+ String c "")
      | Spec after_key =>
          if Ascii.eqb c "%" then
            if after_key then None
            else format_from Text fmt' pending mapping (out +:+ "%")
          else if Ascii.eqb c "(" && negb after_key then
            match mapping with
            | None => Some (Raise TypeError)
            | Some _ => format_from (Key 1 "") fmt' pending mapping out
            end
          else if is_modifier c then None
          else
            match pending with
            | [] => Some (Raise TypeError)
            | v :: pending' =>
                match convert c v with
                | None => None
                | Some (Raise e) => Some (Raise e)
                | Some (Return text) =>
                    format_from Text fmt' pending' mapping (out +:+ text)
                end
            end
      | Key depth key =>
          if Ascii.eqb c ")" then
            match depth with
            | 1%nat =>
                match mapping with
                | None => Some (Raise TypeError)
                | Some m =>
                    match subscript m key with
                    | Raise e => Some (Raise e)
                    | Return v => format_from (Spec true) fmt' [v] mapping out
                    end
                end
            | _ => format_from (Key (pred depth) (key +:+ ")")) fmt' pending mapping out
            end
          else if Ascii.eqb c "(" then
            format_from (Key (S depth) (key +:+ "(")) fmt' pending mapping out
          else format_from (Key depth (key +:+ String c "")) fmt' pending mapping out
      end
  end.

Definition format (fmt : string) (values : value) : option (result string) :=
  let pending := match values with VTuple xs => xs | _ => [values] end in
  format_from Text fmt pending (format_mapping values) "".

Section Extraction.

(** Python's own [str.__mod__], consulted for the formats that [format] does
    not compute (flags, widths, precisions, numeric conversions other than
    [%d], arguments whose text depends on the object). *)
Variable builtin_format : string → value → result string.

(** The binary operator [%]. *)
Definition py_mod (a b : value) : result value :=
  match a with
  | VStr fmt =>
      VStr <$> (match format fmt b with
                | Some r => r
                | None => builtin_format fmt b
                end)
  | _ =>
      match as_int a, as_int b with
      | Some x, Some y =>
          if y =? 0 then Raise ZeroDivisionError else Return (VInt (x `mod` y))
      | _, _ => Raise TypeError
      end
  end.

(** ** Statement extraction: [CursorTracer] *)

Definition get_operation_name (cursor : loc) (args : list value) : result string :=
  match args with
  | [] => Return ""%string
  | statement :: _ =>
      statement ← (match statement with
                   | VComposed c => VStr <$> as_string c cursor
                   | _ => Return statement
                   end);
      match statement with
      | VStr s =>
          match split s with
          | tok :: _ => Return tok
          | [] => Raise IndexError
          end
      | _ => Return ""%string
      end
  end.

Definition get_statement (cursor : loc) (args : list value) : result value :=
  match args with
  | [] => Return (VStr "")
  | statement :: rest =>
      statement ← (match statement with
                   | VComposed c => VStr <$> as_string c cursor
                   | _ => Return statement
                   end);
      (* Fix sql parameter placeholder(%s) to format sql parameters *)
      match rest with
      | [] => Return statement
      | params :: _ =>
          n ← py_len params;
          if (0 <? n)%nat then py_mod statement params else Return statement
      end
  end.

End Extraction.

(** ** The heap *)

Module dbapi.

(** Modelled from the spec: the Database-API Integration Context of
    [opentelemetry.instrumentation.dbapi], whose source is not part of this
    file: the instrumentation library's identity and version, the
    database-system tag, the map from connection-attribute names to accessor
    paths, and the tracer provider. *)
Record DatabaseApiIntegration := {
  name : string;
  database_system : string;
  connection_attributes : list (string * string);
  version : string;
  tracer_provider : value;
}.

(** Modelled from the spec: the cursor tracer of
    [opentelemetry.instrumentation.dbapi], constructed from the integration
    context that it uses to annotate spans. *)
Record CursorTracer := { _db_api_integration : value }.

End dbapi.

Inductive object :=
  | Instance (attrs : gmap string value)
  | Class (name : string)
  | Integration (d : dbapi.DatabaseApiIntegration)
  | TracedCursorFactory (base_factory : value) (_cursor_tracer : dbapi.CursorTracer).

(** [Instance] is an object with an attribute dictionary (a connection);
    [Class] is a cursor class defined by the application;
    [TracedCursorFactory] is a class created by the [class] statement of
    [_new_cursor_factory], with the two variables its methods close over. *)

Abbreviation heap := (gmap loc object).

(** Calls that read or change the heap.  The heap changes made before an
    exception is raised persist. *)
Definition M (A : Type) : Type := heap → result A * heap.

#[global] Instance M_ret : MRet M := λ A a h, (Return a, h).
#[global] Instance M_bind : MBind M := λ A B f m h,
  match m h with
  | (Return a, h') => f a h'
  | (Raise e, h') => (Raise e, h')
  end.

Definition raise {A} (e : exn) : M A := λ h, (Raise e, h).

(** Creation of an object: its identity is new. *)
Definition alloc (o : object) : M value := λ h,
  let l := fresh (dom h) in (Return (VRef l), <[l := o]> h).

(** [obj.name], for objects with an attribute dictionary. *)
Definition getattr (obj : value) (name : string) : M value := λ h,
  match obj with
  | VRef l =>
      match h !! l with
      | Some (Instance attrs) =>
          match attrs !! name with
          | Some v => (Return v, h)
          | None => (Raise AttributeError, h)
          end
      | _ => (Raise AttributeError, h)
      end
  | _ => (Raise AttributeError, h)
  end.

(** [getattr(obj, name, default)]. *)
Definition getattr_default (obj : value) (name : string) (default : value) : M value := λ h,
  match getattr obj name h with
  | (Raise AttributeError, h') => (Return default, h')
  | r => r
  end.

(** [setattr(obj, name, v)] and [obj.name = v]. *)
Definition setattr (obj : value) (name : string) (v : value) : M unit := λ h,
  match obj with
  | VRef l =>
      match h !! l with
      | Some (Instance attrs) => (Return (), <[l := Instance (<[name := v]> attrs)]> h)
      | _ => (Raise AttributeError, h)
      end
  | _ => (Raise AttributeError, h)
  end.

(** The constructor calls [DatabaseApiIntegration(...)] and
    [CursorTracer(db_api)]. *)
Definition DatabaseApiIntegration (name database_system : string)
    (connection_attributes : list (string * string)) (version : string)
    (tracer_provider : value) : M value :=
  alloc (Integration
           {| dbapi.name := name;
              dbapi.database_system := database_system;
              dbapi.connection_attributes := connection_attributes;
              dbapi.version := version;
              dbapi.tracer_provider := tracer_provider |}).

Definition CursorTracer (db_api : value) : dbapi.CursorTracer :=
  {| dbapi._db_api_integration := db_api |}.

(** Whether [v] can be the base of a [class] statement. *)
Definition is_class (h : heap) (v : value) : bool :=
  match v with
  | VPgCursor => true
  | VRef l =>
      match h !! l with
      | Some (Class _) | Some (TracedCursorFactory _ _) => true
      | _ => false
      end
  | _ => false
  end.

(** [class TracedCursorFactory(base_factory): ...] *)
Definition new_class (base_factory : value) (_cursor_tracer : dbapi.CursorTracer) : M value := λ h,
  if is_class h base_factory
  then alloc (TracedCursorFactory base_factory _cursor_tracer) h
  else (Raise TypeError, h).

(** ** The instrumentor *)

Definition _OTEL_CURSOR_FACTORY_KEY : string := "_otel_orig_cursor_factory".

Definition __name__ : string := "opentelemetry.instrumentation.psycopg2".

Module Psycopg2Instrumentor.

Definition _CONNECTION_ATTRIBUTES : list (string * string) :=
  [("database", "info.dbname"); ("port", "info.port");
   ("host", "info.host"); ("user", "info.user")]%string.

Definition _DATABASE_SYSTEM : string := "postgresql".

End Psycopg2Instrumentor.

(** The methods that a traced cursor factory overrides. *)
Inductive method := execute | executemany | callproc.

(** [super().m] in a method of a class that derives from [base]: the
    implementation of [m] that [base] provides, bound to [self]. *)
Record super_method := {
  super_base : value;
  super_name : method;
  super_self : value;
}.

Section Instrumentation.

(** The version of the instrumentation package ([version.py]). *)
Variable __version__ : string.

(** [dbapi.CursorTracer.traced_execution] (called with the cursor, the
    method to run and that method's arguments) and
    [dbapi.DatabaseApiIntegration.get_connection_attributes], which the
    classes of this file inherit. *)
Variable traced_execution :
  dbapi.CursorTracer → value → super_method → list value → gmap string value → M value.
Variable get_connection_attributes : value → value → M unit.

Definition _new_cursor_factory (db_api base_factory tracer_provider : value) : M value :=
  db_api ← (if negb (truthy db_api) then
              DatabaseApiIntegration
                __name__
                Psycopg2Instrumentor._DATABASE_SYSTEM
                Psycopg2Instrumentor._CONNECTION_ATTRIBUTES
                __version__
                tracer_provider
            else mret db_api);
  let base_factory := if truthy base_factory then base_factory else VPgCursor in
  let _cursor_tracer := CursorTracer db_api in
  new_class base_factory _cursor_tracer.

(** [_new_cursor_factory] called with a dictionary of keyword arguments:
    parameters that are not given take their default, [None]. *)
Definition _new_cursor_factory_kw (kwargs : gmap string value) : M value :=
  _new_cursor_factory (default VNone (kwargs !! "db_api"))
                      (default VNone (kwargs !! "base_factory"))
                      (default VNone (kwargs !! "tracer_provider")).

(** The body shared by [execute], [executemany] and [callproc] of the class
    [cls] created by [_new_cursor_factory]. *)
Definition traced_method (cls : object) (m : method) (self : value)
    (args : list value) (kwargs : gmap string value) : M value :=
  match cls with
  | TracedCursorFactory base_factory _cursor_tracer =>
      traced_execution _cursor_tracer self
        {| super_base := base_factory; super_name := m; super_self := self |}
        args kwargs
  | _ => raise AttributeError
  end.

Definition instrument_connection (connection tracer_provider : value) : M value :=
  original ← getattr connection "cursor_factory";
  setattr connection _OTEL_CURSOR_FACTORY_KEY original;;
  factory ← _new_cursor_factory VNone VNone tracer_provider;
  setattr connection "cursor_factory" factory;;
  mret connection.

Definition uninstrument_connection (connection : value) : M value :=
  original ← getattr_default connection _OTEL_CURSOR_FACTORY_KEY VNone;
  setattr connection "cursor_factory" original;;
  mret connection.

Definition wrapped_connection (self : value)
    (connect_method : list value → gmap string value → M value)
    (args : list value) (kwargs : gmap string value) : M value :=
  let base_cursor_factory := default VNone (kwargs !! "cursor_factory") in
  let kwargs := delete "cursor_factory" kwargs in
  let new_factory_kwargs : gmap string value := {[ "db_api" := self ]} in
  let new_factory_kwargs :=
    if truthy base_cursor_factory
    then <[ "base_factory" := base_cursor_factory ]> new_factory_kwargs
    else new_factory_kwargs in
  factory ← _new_cursor_factory_kw new_factory_kwargs;
  let kwargs := <[ "cursor_factory" := factory ]> kwargs in
  connection ← connect_method args kwargs;
  get_connection_attributes self connection;;
  mret connection.

(** Sequences of calls of the per-connection interface on one connection. *)
Inductive call :=
  | InstrumentConnection (tracer_provider : value)
  | UninstrumentConnection.

Definition run_call (connection : value) (k : call) : M value :=
  match k with
  | InstrumentConnection tracer_provider => instrument_connection connection tracer_provider
  | UninstrumentConnection => uninstrument_connection connection
  end.

(** [reachable connection h0 ks h]: the calls [ks], made in this order from
    the heap [h0], all return and leave the heap [h]. *)
Inductive reachable (connection : value) (h0 : heap) : list call → heap → Prop :=
  | reachable_nil : reachable connection h0 [] h0
  | reachable_snoc ks k h h' r :
      reachable connection h0 ks h →
      run_call connection k h = (Return r, h') →
      reachable connection h0 (ks ++ [k]) h'.

End Instrumentation.

(** ** Vocabulary of the statements *)

(** The text a statement argument stands for: itself, or what a composed
    statement renders on the cursor. *)
Definition resolves_to (cursor : loc) (statement : value) (s : string) : Prop :=
  statement = VStr s ∨
  ∃ c, statement = VComposed c ∧ as_string c cursor = Return s.

(** Text made of white space only, and text without any white space. *)
Fixpoint blank (s : string) : bool :=
  match s with
  | EmptyString => true
  | String c s' => isspace c && blank s'
  end.

Fixpoint solid (s : string) : bool :=
  match s with
  | EmptyString => true
  | String c s' => negb (isspace c) && solid s'
  end.

(** [tok] is the first white-space-delimited token of [s]: [s] is some white
    space, then [tok], then either nothing or a white-space character and
    whatever follows. *)
Definition is_first_token (s tok : string) : Prop :=
  ∃ ws rest,
    s = ws +:+ tok +:+ rest ∧
    blank ws = true ∧
    tok ≠ ""%string ∧ solid tok = true ∧
    (rest = ""%string ∨ ∃ c rest', rest = String c rest' ∧ isspace c = true).

(** Text without a per-cent sign. *)
Fixpoint literal (s : string) : bool :=
  match s with
  | EmptyString => true
  | String c s' => negb (Ascii.eqb c "%") && literal s'
  end.

(** A statement with one [%s] placeholder before each piece of [pieces], and
    the same statement with the placeholders replaced by [texts]. *)
Fixpoint template (head : string) (pieces : list string) : string :=
  match pieces with
  | [] => head
  | p :: pieces' => head +:+ "%s" +:+ template p pieces'
  end.

Fixpoint filled (head : string) (texts pieces : list string) : string :=
  match texts, pieces with
  | t :: texts', p :: pieces' => head +:+ t +:+ filled p texts' pieces'
  | _, _ => head
  end.

(** The attributes of the connection at [c]. *)
Definition attrs_of (h : heap) (c : loc) : option (gmap string value) :=
  match h !! c with
  | Some (Instance attrs) => Some attrs
  | _ => None
  end.

(** The cursor-construction hook and the hidden marker of the connection at
    [c]. *)
Definition cursor_factory_of (h : heap) (c : loc) : option value :=
  attrs ← attrs_of h c; attrs !! "cursor_factory".

Definition marker_of (h : heap) (c : loc) : option value :=
  attrs ← attrs_of h c; attrs !! _OTEL_CURSOR_FACTORY_KEY.

(** [v] is a class created by [_new_cursor_factory]. *)
Definition is_traced (h : heap) (v : value) : bool :=
  match v with
  | VRef l =>
      match h !! l with
      | Some (TracedCursorFactory _ _) => true
      | _ => false
      end
  | _ => false
  end.

(** The integration context that [_new_cursor_factory] creates when it is
    given none. *)
Definition own_integration (version : string) (tracer_provider : value) : object :=
  Integration
    {| dbapi.name := __name__;
       dbapi.database_system := Psycopg2Instrumentor._DATABASE_SYSTEM;
       dbapi.connection_attributes := Psycopg2Instrumentor._CONNECTION_ATTRIBUTES;
       dbapi.version := version;
       dbapi.tracer_provider := tracer_provider |}.

(** [v] does not refer to an object that does not exist. *)
Definition well_formed (h : heap) (v : value) : Prop :=
  ∀ l, v = VRef l → is_Some (h !! l).

(** The marker invariant in its strict form: a marker is present only while
    the hook is a traced factory, and a connection without marker is as it
    was in [h0]. *)
Definition strict_marker_invariant (h0 h : heap) (c : loc) : Prop :=
  (is_Some (marker_of h c) →
     ∃ f, cursor_factory_of h c = Some f ∧ is_traced h f = true) ∧
  (marker_of h c = None → h !! c = h0 !! c).

(** ** Sample objects *)

(** An interpreter that has none of the formats left out of [format]. *)
Definition no_builtin_format (fmt : string) (values : value) : result string :=
  Raise (LibraryError "format").

Definition insert_statement : Composed :=
  {| as_string := λ _, Return "INSERT INTO test (testField) VALUES (%s)"%string |}.

(** A connection that has never been instrumented, with hook [factory]. *)
Definition plain_connection (factory : value) : object :=
  Instance {[ "cursor_factory"%string := factory ]}.

(** A [connect] that records the arguments it is called with in the
    connection it creates. *)
Definition recording_connect (args : list value) (kwargs : gmap string value) : M value :=
  alloc (Instance (<[ "args"%string := VTuple args ]> kwargs)).

Definition sample_integration : object := own_integration "0.0" VNone.

(** A class of the application deriving from the stock cursor class. *)
Definition sample_cursor_class : object := Class "NamedCursor".

(** Stand-ins for the inherited methods: no span is recorded and no
    connection attribute is read. *)
Definition untraced_execution (tracer : dbapi.CursorTracer) (cursor : value)
    (query_method : super_method) (args : list value)
    (kwargs : gmap string value) : M value :=
  mret VNone.

Definition skip_connection_attributes (self connection : value) : M unit :=
  mret ().

(** A heap with one connection that has never been instrumented. *)
Definition untouched_heap : heap :=
  {[ 1%positive := plain_connection VPgCursor ]}.

(** A heap with an integration context, a cursor class of the application,
    and a connection that uses this class. *)
Definition application_heap : heap :=
  {[ 1%positive := sample_integration;
     2%positive := sample_cursor_class;
     3%positive := plain_connection (VRef 2%positive) ]}.

(** ** Vocabulary of the further properties *)

(** The first argument can be rendered: if it is a composed statement, its
    [as_string] returns on the cursor. *)
Definition renders (cursor : loc) (statement : value) : Prop :=
  ∀ c, statement = VComposed c → returns (as_string c cursor).

(** The values that have a length. *)
Definition sized (v : value) : bool :=
  match v with
  | VStr _ | VTuple _ | VList _ | VDict _ => true
  | _ => false
  end.

(** A text with every per-cent sign doubled. *)
Fixpoint escape (s : string) : string :=
  match s with
  | EmptyString => ""
  | String c s' =>
      if Ascii.eqb c "%" then "%%" +:+ escape s' else String c (escape s')
  end.

(** A key without parentheses. *)
Fixpoint key_text (k : string) : bool :=
  match k with
  | EmptyString => true
  | String c k' => negb (Ascii.eqb c "(") && negb (Ascii.eqb c ")") && key_text k'
  end.

(** A statement with one named placeholder [%(key)s] before each piece. *)
Fixpoint named_template (head : string) (pieces : list (string * string)) : string :=
  match pieces with
  | [] => head
  | (k, p) :: pieces' => head +:+ "%(" +:+ k +:+ ")s" +:+ named_template p pieces'
  end.

(** The characters that are no conversion type, flag, width, precision or
    length modifier. *)
Definition unsupported_conversion (c : ascii) : bool :=
  negb (Ascii.eqb c "%") && negb (Ascii.eqb c "(") && negb (is_modifier c) &&
  match convert c VNone with
  | Some (Raise ValueError) => true
  | _ => false
  end.

(** Rounds of [instrument_connection] followed by [uninstrument_connection],
    one round for each tracer provider. *)
Fixpoint rounds (tracer_providers : list value) : list call :=
  match tracer_providers with
  | [] => []
  | tp :: tps => InstrumentConnection tp :: UninstrumentConnection :: rounds tps
  end.

(** A composed statement that cannot be rendered. *)
Definition broken_statement : Composed :=
  {| as_string := λ _, Raise (LibraryError "ProgrammingError") |}.

(** A [connect] that fails. *)
Definition failing_connect (args : list value) (kwargs : gmap string value) : M value :=
  raise (LibraryError "OperationalError").

(** A heap with an object that has no cursor factory. *)
Definition bare_heap : heap := {[ 1%positive := Instance ∅ ]}.

(** * Properties *)

(** ** Text *)

Lemma append_cons c s t : String c s +:+ t = String c (s +:+ t).
Proof. reflexivity. Qed.

Lemma append_empty_l s : "" +:+ s = s.
Proof. reflexivity. Qed.

Lemma append_empty_r s : s +:+ "" = s.
Proof. induction s as [|c s IH]; [done|]. by rewrite append_cons, IH. Qed.

Lemma append_assoc s t u : (s +:+ t) +:+ u = s +:+ t +:+ u.
Proof. induction s as [|c s IH]; [done|]. by rewrite !append_cons, IH. Qed.

(** ** [str.split()] and the first token *)

Lemma split_from_blank ws s :
  blank ws = true → split_from "" (ws +:+ s) = split_from "" s.
Proof.
  induction ws as [|c ws IH]; [done|].
  intros [Hc Hws]%andb_prop. rewrite append_cons. simpl. rewrite Hc. auto.
Qed.

Lemma split_from_token tok : ∀ acc rest,
  solid tok = true →
  acc +:+ tok ≠ ""%string →
  rest = ""%string ∨ (∃ c rest', rest = String c rest' ∧ isspace c = true) →
  ∃ more, split_from acc (tok +:+ rest) = (acc +:+ tok) :: more.
Proof.
  induction tok as [|c tok IH]; intros acc rest Hsolid Hne Hrest.
  - rewrite append_empty_r in *. rewrite append_empty_l.
    destruct Hrest as [-> | (c & rest' & -> & Hc)]; simpl.
    + destruct acc; [done | eauto].
    + rewrite Hc. destruct acc; [done | eauto].
  - apply andb_prop in Hsolid as [Hc%negb_true_iff Htok].
    rewrite append_cons. simpl. rewrite Hc.
    destruct (IH (acc +:+ String c "") rest) as [more Hmore]; [done| |done|].
    + rewrite append_assoc. intros Heq. by destruct acc.
    + rewrite Hmore, append_assoc. eauto.
Qed.

Lemma split_first_token s tok :
  is_first_token s tok → ∃ more, split s = tok :: more.
Proof.
  intros (ws & rest & -> & Hws & Hne & Hsolid & Hrest).
  unfold split. rewrite split_from_blank by done.
  by apply (split_from_token tok "" rest).
Qed.

Lemma split_blank s : blank s = true → split s = [].
Proof.
  intros Hs. unfold split.
  rewrite <- (append_empty_r s), split_from_blank by done. done.
Qed.

(** A text either is white space only or has a first token. *)
Lemma solid_prefix s :
  ∃ tok rest, s = tok +:+ rest ∧ solid tok = true ∧
    (rest = ""%string ∨ ∃ c rest', rest = String c rest' ∧ isspace c = true).
Proof.
  induction s as [|c s (tok & rest & -> & Htok & Hrest)].
  - exists ""%string, ""%string. auto.
  - destruct (isspace c) eqn:Hc.
    + exists ""%string, (String c (tok +:+ rest)). eauto 10.
    + exists (String c tok), rest. simpl. rewrite Hc. auto.
Qed.

Lemma first_token_exists s :
  blank s = false → ∃ tok, is_first_token s tok.
Proof.
  induction s as [|c s IH]; [done|]. simpl.
  destruct (isspace c) eqn:Hc; simpl.
  - intros (tok & ws & rest & -> & ? & ? & ? & ?)%IH.
    exists tok, (String c ws), rest. simpl. rewrite Hc. auto.
  - intros _. destruct (solid_prefix s) as (tok & rest & -> & Htok & Hrest).
    exists (String c tok), ""%string, rest. simpl. rewrite Hc. auto.
Qed.

Lemma first_token_unique s tok tok' :
  is_first_token s tok → is_first_token s tok' → tok = tok'.
Proof.
  intros [more H]%split_first_token [more' H']%split_first_token. congruence.
Qed.

(** ** Formatting *)

Lemma format_from_literal p : ∀ rest pending mapping out,
  literal p = true →
  format_from Text (p +:+ rest) pending mapping out =
  format_from Text rest pending mapping (out +:+ p).
Proof.
  induction p as [|c p IH]; intros rest pending mapping out Hp.
  - by rewrite append_empty_l, append_empty_r.
  - apply andb_prop in Hp as [Hc%negb_true_iff Hp].
    rewrite append_cons. simpl. rewrite Hc, IH by done.
    by rewrite append_assoc.
Qed.

Lemma format_from_placeholder v t rest pending mapping out :
  py_str v = Some t →
  format_from Text ("%s" +:+ rest) (v :: pending) mapping out =
  format_from Text rest pending mapping (out +:+ t).
Proof. intros Hv. simpl. by rewrite Hv. Qed.

Lemma format_from_template pieces : ∀ head vs ts out,
  literal head = true →
  Forall (λ p, literal p = true) pieces →
  Forall2 (λ v t, py_str v = Some t) vs ts →
  length vs = length pieces →
  format_from Text (template head pieces) vs None out =
  Some (Return (out +:+ filled head ts pieces)).
Proof.
  induction pieces as [|p pieces IH]; intros head vs ts out Hhead Hpieces Hvs Hlen.
  - destruct vs; [|done]. inversion Hvs; subst. simpl.
    rewrite <- (append_empty_r head) at 1.
    by rewrite format_from_literal.
  - destruct vs as [|v vs]; [done|].
    inversion Hvs as [|? t ? ts' Hv Hvs']; subst.
    inversion Hpieces; subst. simpl.
    rewrite format_from_literal by done.
    rewrite (format_from_placeholder v t) by done.
    rewrite (IH p vs ts') by (done || by injection Hlen).
    by rewrite !append_assoc.
Qed.

Lemma format_template head pieces vs ts :
  literal head = true →
  Forall (λ p, literal p = true) pieces →
  Forall2 (λ v t, py_str v = Some t) vs ts →
  length vs = length pieces →
  format (template head pieces) (VTuple vs) = Some (Return (filled head ts pieces)).
Proof.
  intros. unfold format. simpl.
  by rewrite (format_from_template pieces head vs ts "").
Qed.

(** ** Statement extraction *)

Section ExtractionFacts.

Variable builtin_format : string → value → result string.

Lemma get_operation_name_resolved cursor first rest s :
  resolves_to cursor first s →
  get_operation_name cursor (first :: rest) =
  match split s with
  | tok :: _ => Return tok
  | [] => Raise IndexError
  end.
Proof. intros [-> | (c & -> & Hc)]; simpl; [done|]. by rewrite Hc. Qed.

Lemma get_statement_resolved cursor first params rest s :
  resolves_to cursor first s →
  get_statement builtin_format cursor (first :: params :: rest) =
  n ← py_len params;
  if (0 <? n)%nat then py_mod builtin_format (VStr s) params else Return (VStr s).
Proof. intros [-> | (c & -> & Hc)]; simpl; [done|]. by rewrite Hc. Qed.

(** A statement text without any token makes [split()[0]] fail. *)
Lemma get_operation_name_blank cursor first rest s :
  resolves_to cursor first s → blank s = true →
  get_operation_name cursor (first :: rest) = Raise IndexError.
Proof.
  intros Hs Hblank.
  by rewrite (get_operation_name_resolved _ _ _ s), split_blank.
Qed.

(** C1, as amended: both extraction functions return the empty text for zero
    arguments; [get_operation_name] returns the empty text when its first
    argument is neither text nor a composed statement, and returns when that
    argument is, or renders to, text with a character that is not white
    space; with an empty parameter sequence as second argument
    [get_statement] returns the statement text as it is, without raising. *)
Theorem extraction_without_parameters cursor :
  get_operation_name cursor [] = Return ""%string ∧
  get_statement builtin_format cursor [] = Return (VStr "") ∧
  (∀ first rest, is_composed first = false → is_str first = false →
     get_operation_name cursor (first :: rest) = Return ""%string) ∧
  (∀ first rest s, resolves_to cursor first s → blank s = false →
     returns (get_operation_name cursor (first :: rest))) ∧
  (∀ first params rest s, resolves_to cursor first s →
     py_len params = Return 0%nat →
     get_statement builtin_format cursor (first :: params :: rest) = Return (VStr s)).
Proof.
  repeat split.
  - intros first rest Hc Hs. by destruct first.
  - intros first rest s Hs [tok [more Htok]%split_first_token]%first_token_exists.
    rewrite (get_operation_name_resolved _ _ _ s), Htok by done. by exists tok.
  - intros first params rest s Hs Hlen.
    rewrite (get_statement_resolved _ _ _ _ s), Hlen by done. done.
Qed.

(** C2, as amended: [get_statement] does not catch a failure of the per-cent
    substitution; the exception raised by the formatting is the outcome of
    [get_statement]. *)
Theorem get_statement_propagates_format_error cursor first params rest s n e :
  resolves_to cursor first s →
  py_len params = Return n → (0 < n)%nat →
  py_mod builtin_format (VStr s) params = Raise e →
  get_statement builtin_format cursor (first :: params :: rest) = Raise e.
Proof.
  intros Hs Hlen Hn Hmod.
  rewrite (get_statement_resolved _ _ _ _ s), Hlen by done. simpl.
  by destruct n; [lia|].
Qed.

(** C6, as amended: when the first argument is, or renders to, a text with
    some character that is not white space, [get_operation_name] returns the
    first white-space-delimited token of that text, as it is written there. *)
Theorem get_operation_name_first_token cursor first rest s :
  resolves_to cursor first s → blank s = false →
  ∃ tok, is_first_token s tok ∧
         get_operation_name cursor (first :: rest) = Return tok.
Proof.
  intros Hs [tok Htok]%first_token_exists. exists tok. split; [done|].
  destruct (split_first_token s tok Htok) as [more Hsplit].
  by rewrite (get_operation_name_resolved _ _ _ s), Hsplit.
Qed.

(** C7, as amended: when the first argument is, or renders to, a text whose
    only per-cent signs are [%s] placeholders, and the second argument is a
    non-empty tuple with one parameter for each placeholder, [get_statement]
    returns the text with each placeholder replaced by the text of its
    parameter. *)
Theorem get_statement_substitutes cursor first rest head pieces v vs ts :
  resolves_to cursor first (template head pieces) →
  literal head = true →
  Forall (λ p, literal p = true) pieces →
  Forall2 (λ x t, py_str x = Some t) (v :: vs) ts →
  length (v :: vs) = length pieces →
  get_statement builtin_format cursor (first :: VTuple (v :: vs) :: rest) =
    Return (VStr (filled head ts pieces)).
Proof.
  intros Hs Hhead Hpieces Hvs Hlen.
  rewrite (get_statement_resolved _ _ _ _ (template head pieces)) by done.
  simpl. by rewrite (format_template head pieces (v :: vs) ts).
Qed.

(** C8: [get_operation_name] returns the empty text when there is no
    argument, and when the first argument is neither a composed statement nor
    a text. *)
Theorem get_operation_name_empty cursor args :
  args = [] ∨
  (∃ first rest, args = first :: rest ∧
                 is_composed first = false ∧ is_str first = false) →
  get_operation_name cursor args = Return ""%string.
Proof.
  intros [-> | (first & rest & -> & Hc & Hs)]; [done|]. by destruct first.
Qed.

End ExtractionFacts.

(** C1 as stated fails: an empty statement text makes [get_operation_name]
    raise, and an [executemany] with an empty parameter sequence has a
    non-empty operation name and statement. *)
Lemma extraction_total_counterexample :
  get_operation_name 1%positive [VStr ""] = Raise IndexError ∧
  get_operation_name 1%positive [VStr "INSERT INTO t VALUES (%s)"; VList []]
    = Return "INSERT"%string ∧
  get_statement no_builtin_format 1%positive
    [VStr "INSERT INTO t VALUES (%s)"; VList []]
    = Return (VStr "INSERT INTO t VALUES (%s)").
Proof. repeat split. Qed.

Lemma extraction_without_parameters_witness :
  returns (get_operation_name 1%positive [VStr "INSERT INTO t VALUES (%s)"; VList []]) ∧
  get_statement no_builtin_format 1%positive
    [VStr "INSERT INTO t VALUES (%s)"; VList []]
    = Return (VStr "INSERT INTO t VALUES (%s)").
Proof.
  destruct (extraction_without_parameters no_builtin_format 1%positive)
    as (_ & _ & _ & Hname & Hstatement).
  split.
  - apply (Hname _ _ "INSERT INTO t VALUES (%s)"%string); [left|]; reflexivity.
  - apply Hstatement; [left|]; reflexivity.
Defined.

(** C2 as stated fails: a literal per-cent sign in the statement makes the
    substitution fail, and [get_statement] raises the formatting error. *)
Lemma get_statement_catches_counterexample :
  ¬ returns (get_statement no_builtin_format 1%positive
               [VStr "SELECT * FROM t WHERE name LIKE 'a%' AND id = %s";
                VTuple [VInt 1]]) ∧
  get_statement no_builtin_format 1%positive
    [VStr "SELECT * FROM t WHERE name LIKE 'a%' AND id = %s"; VTuple [VInt 1]]
    = Raise ValueError.
Proof. split; [intros [v Hv]; discriminate Hv | reflexivity]. Qed.

Lemma get_statement_propagates_format_error_witness :
  py_mod no_builtin_format
    (VStr "SELECT * FROM t WHERE name LIKE 'a%' AND id = %s") (VTuple [VInt 1])
    = Raise ValueError ∧
  get_statement no_builtin_format 1%positive
    [VStr "SELECT * FROM t WHERE name LIKE 'a%' AND id = %s"; VTuple [VInt 1]]
    = Raise ValueError.
Proof.
  split; [reflexivity|].
  apply (get_statement_propagates_format_error no_builtin_format 1%positive
           _ _ [] "SELECT * FROM t WHERE name LIKE 'a%' AND id = %s" 1%nat);
    [left; reflexivity | reflexivity | lia | reflexivity].
Defined.

(** C6 as stated fails: a text statement that is empty or white space only
    has no first token, and [get_operation_name] does not return on it. *)
Lemma first_token_of_blank_counterexample :
  get_operation_name 1%positive [VStr ""] = Raise IndexError ∧
  get_operation_name 1%positive [VStr "   "] = Raise IndexError ∧
  ¬ (∃ tok, get_operation_name 1%positive [VStr "   "] = Return tok).
Proof.
  split; [reflexivity|]. split; [reflexivity|].
  intros [tok Htok]. discriminate Htok.
Qed.

Lemma select_first_token : is_first_token "SELECT * FROM t" "SELECT".
Proof.
  exists ""%string, " * FROM t"%string.
  repeat split; [done|]. right. by exists " "%char, "* FROM t"%string.
Qed.

Lemma get_operation_name_first_token_witness :
  blank "SELECT * FROM t" = false ∧
  get_operation_name 1%positive [VStr "SELECT * FROM t"] = Return "SELECT"%string.
Proof.
  split; [reflexivity|].
  destruct (get_operation_name_first_token 1%positive
              (VStr "SELECT * FROM t") [] "SELECT * FROM t")
    as (tok & Htok & Hname); [left; reflexivity | reflexivity |].
  rewrite Hname.
  f_equal. exact (first_token_unique _ _ _ Htok select_first_token).
Defined.

(** C7 as stated fails: a non-empty list of parameters is substituted as one
    value, so the statement shows the list instead of the parameter, and with
    one placeholder for each element the substitution fails. *)
Lemma get_statement_list_parameters_counterexample :
  get_statement no_builtin_format 1%positive
    [VComposed insert_statement; VList [VInt 123]]
    = Return (VStr "INSERT INTO test (testField) VALUES ([123])") ∧
  get_statement no_builtin_format 1%positive
    [VStr "SELECT %s, %s"; VList [VInt 1; VInt 2]]
    = Raise TypeError.
Proof. split; reflexivity. Qed.

Lemma get_statement_substitutes_witness :
  literal "INSERT INTO test (testField) VALUES (" = true ∧
  get_statement no_builtin_format 1%positive
    [VComposed insert_statement; VTuple [VInt 123]]
    = Return (VStr "INSERT INTO test (testField) VALUES (123)").
Proof.
  split; [reflexivity|].
  apply (get_statement_substitutes no_builtin_format 1%positive
           (VComposed insert_statement) []
           "INSERT INTO test (testField) VALUES ("%string
           [")"%string] (VInt 123) [] ["123"%string]).
  - right. exists insert_statement. split; reflexivity.
  - reflexivity.
  - repeat constructor.
  - repeat constructor.
  - reflexivity.
Defined.

Lemma get_operation_name_empty_witness :
  get_operation_name 1%positive [] = Return ""%string ∧
  get_operation_name 1%positive [VInt 3; VTuple [VInt 1]] = Return ""%string.
Proof.
  split.
  - apply get_operation_name_empty. left. reflexivity.
  - apply get_operation_name_empty. right.
    exists (VInt 3), [VTuple [VInt 1]]. repeat split.
Defined.

(** ** The heap *)

Lemma alloc_fresh o h :
  ∃ l, h !! l = None ∧ alloc o h = (Return (VRef l), <[l := o]> h).
Proof.
  exists (fresh (dom h)). split; [|done].
  apply not_elem_of_dom, is_fresh.
Qed.

Lemma getattr_instance c attrs name h :
  h !! c = Some (Instance attrs) →
  getattr (VRef c) name h =
  (match attrs !! name with Some v => Return v | None => Raise AttributeError end, h).
Proof. intros Hc. unfold getattr. rewrite Hc. by destruct (attrs !! name). Qed.

Lemma getattr_default_instance c attrs name d h :
  h !! c = Some (Instance attrs) →
  getattr_default (VRef c) name d h = (Return (default d (attrs !! name)), h).
Proof.
  intros Hc. unfold getattr_default. rewrite (getattr_instance c attrs) by done.
  by destruct (attrs !! name).
Qed.

Lemma setattr_instance c attrs name v h :
  h !! c = Some (Instance attrs) →
  setattr (VRef c) name v h = (Return (), <[c := Instance (<[name := v]> attrs)]> h).
Proof. intros Hc. unfold setattr. by rewrite Hc. Qed.

Lemma attrs_of_insert c attrs h :
  attrs_of (<[c := Instance attrs]> h) c = Some attrs.
Proof. unfold attrs_of. by rewrite lookup_insert_eq. Qed.

(** ** Traced cursor factories and connections *)

Section ConnectionFacts.

Variable __version__ : string.

Lemma new_class_fresh base tracer h :
  is_class h base = true →
  ∃ l, h !! l = None ∧
    new_class base tracer h =
    (Return (VRef l), <[l := TracedCursorFactory base tracer]> h).
Proof. intros Hbase. unfold new_class. rewrite Hbase. apply alloc_fresh. Qed.

(** Without integration context and base, the factory derives from the stock
    cursor class and traces with an integration context of its own. *)
Lemma new_cursor_factory_default tracer_provider h :
  ∃ l1 l2, h !! l1 = None ∧ h !! l2 = None ∧ l1 ≠ l2 ∧
    _new_cursor_factory __version__ VNone VNone tracer_provider h =
    (Return (VRef l2),
     <[l2 := TracedCursorFactory VPgCursor (CursorTracer (VRef l1))]>
       (<[l1 := own_integration __version__ tracer_provider]> h)).
Proof.
  destruct (alloc_fresh (own_integration __version__ tracer_provider) h) as (l1 & Hl1 & Halloc).
  destruct (new_class_fresh VPgCursor (CursorTracer (VRef l1))
              (<[l1 := own_integration __version__ tracer_provider]> h)) as (l2 & Hl2 & Hclass);
    [done|].
  exists l1, l2. apply lookup_insert_None in Hl2 as [Hl2 Hne].
  repeat split; [done..|].
  unfold _new_cursor_factory, DatabaseApiIntegration, mbind, M_bind.
  cbn [truthy negb]. fold (own_integration __version__ tracer_provider).
  rewrite Halloc. apply Hclass.
Qed.

(** With an integration context, the factory derives from the given base, or
    from the stock cursor class when the base is missing. *)
Lemma new_cursor_factory_with db_api base h :
  truthy db_api = true →
  is_class h (if truthy base then base else VPgCursor) = true →
  ∃ l, h !! l = None ∧
    _new_cursor_factory __version__ db_api base VNone h =
    (Return (VRef l),
     <[l := TracedCursorFactory (if truthy base then base else VPgCursor)
              (CursorTracer db_api)]> h).
Proof.
  intros Hdb Hbase.
  destruct (new_class_fresh _ (CursorTracer db_api) h Hbase)
    as (l & Hl & Hclass).
  exists l. split; [done|].
  unfold _new_cursor_factory, mbind, M_bind. rewrite Hdb.
  cbn [negb mret M_ret]. apply Hclass.
Qed.

Lemma instrument_connection_spec c tracer_provider h attrs original :
  h !! c = Some (Instance attrs) →
  attrs !! "cursor_factory" = Some original →
  ∃ l1 l2, h !! l1 = None ∧ h !! l2 = None ∧ l1 ≠ l2 ∧
    instrument_connection __version__ (VRef c) tracer_provider h =
    (Return (VRef c),
     <[c := Instance (<["cursor_factory" := VRef l2]>
                        (<[_OTEL_CURSOR_FACTORY_KEY := original]> attrs))]>
       (<[l2 := TracedCursorFactory VPgCursor (CursorTracer (VRef l1))]>
          (<[l1 := own_integration __version__ tracer_provider]>
             (<[c := Instance (<[_OTEL_CURSOR_FACTORY_KEY := original]> attrs)]> h)))).
Proof.
  intros Hc Hcf.
  set (attrs1 := <[_OTEL_CURSOR_FACTORY_KEY := original]> attrs).
  set (h1 := <[c := Instance attrs1]> h).
  destruct (new_cursor_factory_default tracer_provider h1)
    as (l1 & l2 & Hl1 & Hl2 & Hne & Hnew).
  apply lookup_insert_None in Hl1 as [Hl1 Hc1].
  apply lookup_insert_None in Hl2 as [Hl2 Hc2].
  exists l1, l2. repeat split; [done..|].
  unfold instrument_connection, mbind, M_bind.
  rewrite (getattr_instance c attrs) by done. rewrite Hcf.
  rewrite (setattr_instance c attrs) by done.
  fold attrs1. fold h1. rewrite Hnew.
  rewrite (setattr_instance c attrs1); [done|].
  rewrite !lookup_insert_ne by done. apply lookup_insert_eq.
Qed.

Lemma uninstrument_connection_spec c h attrs :
  h !! c = Some (Instance attrs) →
  uninstrument_connection (VRef c) h =
  (Return (VRef c),
   <[c := Instance (<["cursor_factory" :=
                        default VNone (attrs !! _OTEL_CURSOR_FACTORY_KEY)]> attrs)]> h).
Proof.
  intros Hc. unfold uninstrument_connection, mbind, M_bind.
  rewrite (getattr_default_instance c attrs) by done.
  by rewrite (setattr_instance c attrs) by done.
Qed.

(** C3: [instrument_connection] followed by [uninstrument_connection]
    leaves the cursor factory of the connection as it was before. *)
Theorem instrument_uninstrument_restores c tracer_provider h attrs original :
  h !! c = Some (Instance attrs) →
  attrs !! "cursor_factory" = Some original →
  ∃ h1 h2,
    instrument_connection __version__ (VRef c) tracer_provider h = (Return (VRef c), h1) ∧
    uninstrument_connection (VRef c) h1 = (Return (VRef c), h2) ∧
    cursor_factory_of h2 c = Some original.
Proof.
  intros Hc Hcf.
  destruct (instrument_connection_spec c tracer_provider h attrs original Hc Hcf)
    as (l1 & l2 & _ & _ & _ & Hinstrument).
  eexists _, _. split; [exact Hinstrument|].
  split; [apply uninstrument_connection_spec, lookup_insert_eq|].
  unfold cursor_factory_of. rewrite attrs_of_insert. simpl.
  rewrite lookup_insert_eq.
  rewrite lookup_insert_ne by done. by rewrite lookup_insert_eq.
Qed.

(** C4: after two calls of [instrument_connection] the marker holds the
    factory that the first call installed, and one [uninstrument_connection]
    makes that traced factory the cursor factory of the connection; it is not
    the factory the connection had at first. *)
Theorem double_instrument_loses_original c tracer_provider1 tracer_provider2
    h attrs original :
  h !! c = Some (Instance attrs) →
  attrs !! "cursor_factory" = Some original →
  well_formed h original →
  ∃ h1 h2 h3 first_traced,
    instrument_connection __version__ (VRef c) tracer_provider1 h = (Return (VRef c), h1) ∧
    cursor_factory_of h1 c = Some first_traced ∧
    instrument_connection __version__ (VRef c) tracer_provider2 h1 = (Return (VRef c), h2) ∧
    marker_of h2 c = Some first_traced ∧
    uninstrument_connection (VRef c) h2 = (Return (VRef c), h3) ∧
    cursor_factory_of h3 c = Some first_traced ∧
    is_traced h3 first_traced = true ∧
    first_traced ≠ original.
Proof.
  intros Hc Hcf Hwf.
  destruct (instrument_connection_spec c tracer_provider1 h attrs original Hc Hcf)
    as (l1 & l2 & Hl1 & Hl2 & Hne & Hfirst).
  assert (c ≠ l1) as Hc1 by congruence. assert (c ≠ l2) as Hc2 by congruence.
  set (attrs1 := <["cursor_factory" := VRef l2]>
                   (<[_OTEL_CURSOR_FACTORY_KEY := original]> attrs)) in *.
  set (h1 := <[c := Instance attrs1]> _) in Hfirst.
  destruct (instrument_connection_spec c tracer_provider2 h1 attrs1 (VRef l2))
    as (l3 & l4 & Hl3 & Hl4 & Hne' & Hsecond);
    [apply lookup_insert_eq | apply lookup_insert_eq |].
  set (attrs2 := <["cursor_factory" := VRef l4]>
                   (<[_OTEL_CURSOR_FACTORY_KEY := VRef l2]> attrs1)) in *.
  set (h2 := <[c := Instance attrs2]> _) in Hsecond.
  assert (marker_of h2 c = Some (VRef l2)) as Hmarker.
  { unfold marker_of, h2. rewrite attrs_of_insert. simpl. unfold attrs2.
    rewrite lookup_insert_ne by done. apply lookup_insert_eq. }
  assert (l2 ≠ l3 ∧ l2 ≠ l4) as [Hl23 Hl24].
  { unfold h1 in Hl3, Hl4.
    split; intros <-; rewrite lookup_insert_ne, lookup_insert_eq in * by done;
      done. }
  eexists h1, h2, _, (VRef l2).
  split; [exact Hfirst|]. split.
  { unfold cursor_factory_of, h1. rewrite attrs_of_insert. apply lookup_insert_eq. }
  split; [exact Hsecond|]. split; [exact Hmarker|]. split.
  { apply uninstrument_connection_spec. apply lookup_insert_eq. }
  split.
  { unfold cursor_factory_of. rewrite attrs_of_insert. simpl.
    rewrite lookup_insert_eq. unfold attrs2.
    rewrite lookup_insert_ne by done. by rewrite lookup_insert_eq. }
  split.
  { unfold is_traced, h2, h1.
    repeat (rewrite lookup_insert_ne by congruence).
    by rewrite lookup_insert_eq. }
  intros <-. destruct (Hwf l2 eq_refl) as [o Ho]. congruence.
Qed.

Lemma reachable_connection c h0 attrs0 original ks h :
  h0 !! c = Some (Instance attrs0) →
  attrs0 !! "cursor_factory" = Some original →
  reachable __version__ (VRef c) h0 ks h →
  ∃ attrs f, h !! c = Some (Instance attrs) ∧ attrs !! "cursor_factory" = Some f.
Proof.
  intros Hc Hcf Hreach.
  induction Hreach as [|ks k h h' r _ (attrs & f & Hh & Hf) Hcall]; [eauto|].
  destruct k as [tracer_provider|]; simpl in Hcall.
  - destruct (instrument_connection_spec c tracer_provider h attrs f Hh Hf)
      as (l1 & l2 & _ & _ & _ & Hspec).
    rewrite Hspec in Hcall. injection Hcall as _ <-.
    eexists _, _. split; [apply lookup_insert_eq|]. apply lookup_insert_eq.
  - rewrite (uninstrument_connection_spec c h attrs Hh) in Hcall.
    injection Hcall as _ <-.
    eexists _, _. split; [apply lookup_insert_eq|]. apply lookup_insert_eq.
Qed.

(** From a connection with a cursor factory, every sequence of calls runs to
    its end. *)
Lemma reachable_total c h0 attrs0 original ks :
  h0 !! c = Some (Instance attrs0) →
  attrs0 !! "cursor_factory" = Some original →
  ∃ h, reachable __version__ (VRef c) h0 ks h.
Proof.
  intros Hc Hcf. induction ks as [|k ks [h Hreach]] using rev_ind.
  - exists h0. constructor.
  - destruct (reachable_connection c h0 attrs0 original ks h Hc Hcf Hreach)
      as (attrs & f & Hh & Hf).
    destruct k as [tracer_provider|].
    + destruct (instrument_connection_spec c tracer_provider h attrs f Hh Hf)
        as (l1 & l2 & _ & _ & _ & Hspec).
      eexists. by eapply reachable_snoc.
    + eexists. eapply reachable_snoc; [done|].
      by apply uninstrument_connection_spec.
Qed.

(** C9, as amended: in every state reached by calls of [instrument_connection]
    and [uninstrument_connection] on a connection that starts without marker,
    a marker is present exactly when [instrument_connection] has been called,
    and then the cursor factory is a traced factory or the value kept in the
    marker; without marker the connection is as it started, or differs only
    by a cursor factory reset to [None]. *)
Theorem marker_invariant c h0 attrs0 original ks h :
  h0 !! c = Some (Instance attrs0) →
  attrs0 !! "cursor_factory" = Some original →
  attrs0 !! _OTEL_CURSOR_FACTORY_KEY = None →
  reachable __version__ (VRef c) h0 ks h →
  ∃ attrs f,
    h !! c = Some (Instance attrs) ∧ attrs !! "cursor_factory" = Some f ∧
    match attrs !! _OTEL_CURSOR_FACTORY_KEY with
    | Some saved =>
        (is_traced h f = true ∨ f = saved) ∧
        (∃ tracer_provider, InstrumentConnection tracer_provider ∈ ks)
    | None =>
        (attrs = attrs0 ∨ attrs = <["cursor_factory" := VNone]> attrs0) ∧
        (∀ tracer_provider, InstrumentConnection tracer_provider ∉ ks)
    end.
Proof.
  intros Hc Hcf Hmarker Hreach.
  induction Hreach as [|ks k h h' r _ (attrs & f & Hh & Hf & IH) Hcall].
  - exists attrs0, original. rewrite Hmarker.
    split; [done|]. split; [done|]. split; [by left|].
    intros tp Htp. by apply elem_of_nil in Htp.
  - destruct k as [tracer_provider|]; simpl in Hcall.
    + destruct (instrument_connection_spec c tracer_provider h attrs f Hh Hf)
        as (l1 & l2 & Hl1 & Hl2 & Hne & Hspec).
      rewrite Hspec in Hcall. injection Hcall as _ <-.
      assert (c ≠ l2) as Hc2 by congruence.
      eexists _, _. split; [apply lookup_insert_eq|].
      split; [apply lookup_insert_eq|].
      rewrite lookup_insert_ne by done. rewrite lookup_insert_eq. split.
      * left. unfold is_traced. rewrite lookup_insert_ne by done.
        by rewrite lookup_insert_eq.
      * exists tracer_provider. apply elem_of_app. right.
        by apply list_elem_of_singleton.
    + rewrite (uninstrument_connection_spec c h attrs Hh) in Hcall.
      injection Hcall as _ <-.
      eexists _, _. split; [apply lookup_insert_eq|].
      split; [apply lookup_insert_eq|].
      rewrite lookup_insert_ne by done.
      destruct (attrs !! _OTEL_CURSOR_FACTORY_KEY) as [saved|]; simpl.
      * destruct IH as [_ [tp Htp]]. split; [by right|].
        exists tp. apply elem_of_app. by left.
      * destruct IH as [Hattrs Hnone]. split.
        -- right. destruct Hattrs as [-> | ->]; [done|].
           by rewrite insert_insert_eq.
        -- intros tp [Htp | Htp%list_elem_of_singleton]%elem_of_app;
             [by apply (Hnone tp) | discriminate Htp].
Qed.

(** C10: on a connection without marker, [uninstrument_connection] sets the
    cursor factory to [None], whatever it was, changes nothing else, and
    returns the connection it was given. *)
Theorem uninstrument_without_marker c h attrs :
  h !! c = Some (Instance attrs) →
  attrs !! _OTEL_CURSOR_FACTORY_KEY = None →
  uninstrument_connection (VRef c) h =
    (Return (VRef c), <[c := Instance (<["cursor_factory" := VNone]> attrs)]> h) ∧
  cursor_factory_of (<[c := Instance (<["cursor_factory" := VNone]> attrs)]> h) c
    = Some VNone.
Proof.
  intros Hc Hmarker. split.
  - rewrite (uninstrument_connection_spec c h attrs Hc). by rewrite Hmarker.
  - unfold cursor_factory_of. rewrite attrs_of_insert. apply lookup_insert_eq.
Qed.

End ConnectionFacts.

Section WrappedConnectionFacts.

Variable __version__ : string.
Variable traced_execution :
  dbapi.CursorTracer → value → super_method → list value → gmap string value → M value.
Variable get_connection_attributes : value → value → M unit.

(** C5: [wrapped_connection] calls the real [connect] with the keyword
    argument [cursor_factory] set to a new traced cursor factory; the base of
    that class is the cursor factory the caller supplied, or the stock cursor
    class when the caller supplied none, and each traced method runs the
    implementation of its base through [traced_execution]. *)
Theorem wrapped_connection_base (self : loc) connect_method args kwargs h base :
  (kwargs !! "cursor_factory" = Some base ∧ truthy base = true) ∨
  (kwargs !! "cursor_factory" = None ∧ base = VPgCursor) →
  is_class h base = true →
  ∃ l, h !! l = None ∧
    let traced := TracedCursorFactory base (CursorTracer (VRef self)) in
    wrapped_connection __version__ get_connection_attributes (VRef self)
      connect_method args kwargs h =
      (connection ← connect_method args (<["cursor_factory" := VRef l]> kwargs);
       get_connection_attributes (VRef self) connection;;
       mret connection) (<[l := traced]> h) ∧
    ∀ m cursor margs mkwargs,
      traced_method traced_execution traced m cursor margs mkwargs =
      traced_execution (CursorTracer (VRef self)) cursor
        {| super_base := base; super_name := m; super_self := cursor |}
        margs mkwargs.
Proof.
  intros Hsupplied Hbase.
  assert (_new_cursor_factory_kw __version__
            (if truthy (default VNone (kwargs !! "cursor_factory"))
             then <["base_factory" := default VNone (kwargs !! "cursor_factory")]>
                    ({["db_api" := VRef self]} : gmap string value)
             else {["db_api" := VRef self]}) =
          _new_cursor_factory __version__ (VRef self)
            (default VNone (kwargs !! "cursor_factory")) VNone) as Hkw.
  { unfold _new_cursor_factory_kw.
    destruct (truthy (default VNone (kwargs !! "cursor_factory"))) eqn:Htruthy.
    - rewrite lookup_insert_ne, lookup_singleton_eq by done.
      rewrite lookup_insert_eq.
      rewrite lookup_insert_ne, lookup_singleton_ne by done. done.
    - rewrite lookup_singleton_eq, !lookup_singleton_ne by done. simpl.
      unfold _new_cursor_factory. by rewrite Htruthy. }
  assert ((if truthy (default VNone (kwargs !! "cursor_factory"))
           then default VNone (kwargs !! "cursor_factory") else VPgCursor) = base)
    as Hres.
  { destruct Hsupplied as [[-> Htruthy] | [-> ->]]; simpl; [by rewrite Htruthy|done]. }
  destruct (new_cursor_factory_with __version__ (VRef self)
              (default VNone (kwargs !! "cursor_factory")) h) as (l & Hl & Hnew);
    [done | by rewrite Hres |].
  rewrite Hres in Hnew.
  exists l. split; [done|]. split; [|done].
  unfold wrapped_connection. unfold mbind at 1. unfold M_bind at 1.
  rewrite Hkw, Hnew. by rewrite insert_delete_eq.
Qed.

End WrappedConnectionFacts.

(** ** The theorems at sample inputs *)

Lemma instrument_uninstrument_restores_witness :
  cursor_factory_of application_heap 3%positive = Some (VRef 2%positive) ∧
  ∃ h1 h2,
    instrument_connection "0.0" (VRef 3%positive) VNone application_heap
      = (Return (VRef 3%positive), h1) ∧
    uninstrument_connection (VRef 3%positive) h1 = (Return (VRef 3%positive), h2) ∧
    cursor_factory_of h2 3%positive = Some (VRef 2%positive).
Proof.
  split; [reflexivity|].
  apply (instrument_uninstrument_restores "0.0" 3%positive VNone application_heap
           {[ "cursor_factory"%string := VRef 2%positive ]});
    reflexivity.
Defined.

Lemma double_instrument_loses_original_witness :
  ∃ h1 h2 h3 first_traced,
    instrument_connection "0.0" (VRef 3%positive) VNone application_heap
      = (Return (VRef 3%positive), h1) ∧
    cursor_factory_of h1 3%positive = Some first_traced ∧
    instrument_connection "0.0" (VRef 3%positive) VNone h1
      = (Return (VRef 3%positive), h2) ∧
    marker_of h2 3%positive = Some first_traced ∧
    uninstrument_connection (VRef 3%positive) h2 = (Return (VRef 3%positive), h3) ∧
    cursor_factory_of h3 3%positive = Some first_traced ∧
    is_traced h3 first_traced = true ∧
    first_traced ≠ VRef 2%positive.
Proof.
  apply (double_instrument_loses_original "0.0" 3%positive VNone VNone
           application_heap {[ "cursor_factory"%string := VRef 2%positive ]});
    [reflexivity | reflexivity |].
  intros l Hl. injection Hl as <-. exists sample_cursor_class. reflexivity.
Defined.

Lemma wrapped_connection_base_witness :
  is_class application_heap (VRef 2%positive) = true ∧
  ∃ l, application_heap !! l = None ∧
    let kwargs : gmap string value :=
      {[ "cursor_factory"%string := VRef 2%positive;
         "dbname"%string := VStr "Database" ]} in
    let traced :=
      TracedCursorFactory (VRef 2%positive) (CursorTracer (VRef 1%positive)) in
    wrapped_connection "0.0" skip_connection_attributes (VRef 1%positive)
      recording_connect [] kwargs application_heap =
      (connection ← recording_connect [] (<["cursor_factory" := VRef l]> kwargs);
       skip_connection_attributes (VRef 1%positive) connection;;
       mret connection) (<[l := traced]> application_heap) ∧
    ∀ m cursor margs mkwargs,
      traced_method untraced_execution traced m cursor margs mkwargs =
      untraced_execution (CursorTracer (VRef 1%positive)) cursor
        {| super_base := VRef 2%positive; super_name := m; super_self := cursor |}
        margs mkwargs.
Proof.
  split; [reflexivity|].
  apply (wrapped_connection_base "0.0" untraced_execution
           skip_connection_attributes 1%positive recording_connect []
           {[ "cursor_factory"%string := VRef 2%positive;
              "dbname"%string := VStr "Database" ]}
           application_heap (VRef 2%positive));
    [left; split; reflexivity | reflexivity].
Defined.

(** C9 as stated fails: after [instrument_connection] and
    [uninstrument_connection] the marker is still present while the cursor
    factory is the original one; and [uninstrument_connection] alone changes
    a connection that has no marker. *)
Lemma strict_marker_invariant_counterexample :
  (∃ h, reachable "0.0" (VRef 1%positive) untouched_heap
          [InstrumentConnection VNone; UninstrumentConnection] h ∧
        ¬ strict_marker_invariant untouched_heap h 1%positive) ∧
  (∃ h, reachable "0.0" (VRef 1%positive) untouched_heap
          [UninstrumentConnection] h ∧
        ¬ strict_marker_invariant untouched_heap h 1%positive).
Proof.
  split.
  - eexists. split.
    + eapply (reachable_snoc _ _ _ [InstrumentConnection VNone]
                UninstrumentConnection).
      * eapply (reachable_snoc _ _ _ [] (InstrumentConnection VNone));
          [apply reachable_nil | vm_compute; reflexivity].
      * vm_compute. reflexivity.
    + intros [Hpresent _].
      destruct Hpresent as (f & Hf & Htraced); [by eexists|].
      vm_compute in Hf. injection Hf as <-. discriminate Htraced.
  - eexists. split.
    + eapply (reachable_snoc _ _ _ [] UninstrumentConnection);
        [apply reachable_nil | vm_compute; reflexivity].
    + intros [_ Habsent]. specialize (Habsent eq_refl).
      apply (f_equal (λ o, match o with
                           | Some (Instance attrs) => attrs !! "cursor_factory"
                           | _ => None
                           end)) in Habsent.
      vm_compute in Habsent. discriminate Habsent.
Qed.

Lemma marker_invariant_witness :
  ∃ h attrs f,
    reachable "0.0" (VRef 1%positive) untouched_heap
      [InstrumentConnection VNone; UninstrumentConnection] h ∧
    h !! 1%positive = Some (Instance attrs) ∧
    attrs !! "cursor_factory" = Some f ∧
    match attrs !! _OTEL_CURSOR_FACTORY_KEY with
    | Some saved =>
        (is_traced h f = true ∨ f = saved) ∧
        (∃ tracer_provider,
           InstrumentConnection tracer_provider
             ∈ [InstrumentConnection VNone; UninstrumentConnection])
    | None =>
        (attrs = {[ "cursor_factory"%string := VPgCursor ]} ∨
         attrs = <["cursor_factory" := VNone]>
                   {[ "cursor_factory"%string := VPgCursor ]}) ∧
        (∀ tracer_provider,
           InstrumentConnection tracer_provider
             ∉ [InstrumentConnection VNone; UninstrumentConnection])
    end.
Proof.
  assert (∃ h, reachable "0.0" (VRef 1%positive) untouched_heap
                 [InstrumentConnection VNone; UninstrumentConnection] h)
    as [h Hreach].
  { eexists.
    eapply (reachable_snoc _ _ _ [InstrumentConnection VNone]
              UninstrumentConnection).
    - eapply (reachable_snoc _ _ _ [] (InstrumentConnection VNone));
        [apply reachable_nil | vm_compute; reflexivity].
    - vm_compute. reflexivity. }
  destruct (marker_invariant "0.0" 1%positive untouched_heap
              {[ "cursor_factory"%string := VPgCursor ]} VPgCursor
              [InstrumentConnection VNone; UninstrumentConnection] h)
    as (attrs & f & Hh & Hf & Hinv); [reflexivity.. | exact Hreach |].
  exists h, attrs, f. exact (conj Hreach (conj Hh (conj Hf Hinv))).
Defined.

Lemma uninstrument_without_marker_witness :
  cursor_factory_of untouched_heap 1%positive = Some VPgCursor ∧
  uninstrument_connection (VRef 1%positive) untouched_heap =
    (Return (VRef 1%positive),
     <[1%positive := Instance (<["cursor_factory" := VNone]>
                                 {[ "cursor_factory"%string := VPgCursor ]})]>
       untouched_heap).
Proof.
  split; [reflexivity|].
  apply (uninstrument_without_marker 1%positive untouched_heap
           {[ "cursor_factory"%string := VPgCursor ]});
    reflexivity.
Defined.

(** * Further properties *)

(** ** Tokens *)

Lemma solid_append s t : solid s = true → solid t = true → solid (s +:+ t) = true.
Proof.
  induction s as [|c s IH]; [done|].
  intros Hs Ht. rewrite append_cons. simpl in *.
  apply andb_prop in Hs as [Hc Hs]. by rewrite Hc, IH.
Qed.

Lemma split_from_tokens s : ∀ acc,
  solid acc = true →
  Forall (λ tok, solid tok = true ∧ tok ≠ ""%string) (split_from acc s).
Proof.
  induction s as [|c s IH]; intros acc Hacc; simpl.
  - destruct acc; [constructor|]. by repeat constructor.
  - destruct (isspace c) eqn:Hc.
    + destruct acc; [by apply IH|]. constructor; [done|]. by apply IH.
    + apply IH, solid_append; [done|]. simpl. by rewrite Hc.
Qed.

(** ** Formatting *)

Lemma format_from_escape p : ∀ rest pending mapping out,
  format_from Text (escape p +:+ rest) pending mapping out =
  format_from Text rest pending mapping (out +:+ p).
Proof.
  induction p as [|c p IH]; intros rest pending mapping out.
  - by rewrite append_empty_r.
  - simpl. destruct (Ascii.eqb c "%") eqn:Hc.
    + apply Ascii.eqb_eq in Hc as ->.
      change (("%%" +:+ escape p) +:+ rest)
        with (String "%" (String "%" (escape p +:+ rest))).
      simpl. rewrite IH. by rewrite append_assoc.
    + rewrite append_cons. simpl. rewrite Hc, IH.
      by rewrite append_assoc.
Qed.

Lemma format_from_escaped_template pieces : ∀ head vs ts out,
  Forall2 (λ v t, py_str v = Some t) vs ts →
  length vs = length pieces →
  format_from Text (template (escape head) (escape <$> pieces)) vs None out =
  Some (Return (out +:+ filled head ts pieces)).
Proof.
  induction pieces as [|p pieces IH]; intros head vs ts out Hvs Hlen.
  - destruct vs; [|done]. inversion Hvs; subst. simpl.
    rewrite <- (append_empty_r (escape head)).
    by rewrite format_from_escape.
  - destruct vs as [|v vs]; [done|].
    inversion Hvs as [|? t ? ts' Hv Hvs']; subst.
    rewrite fmap_cons. simpl.
    rewrite format_from_escape.
    rewrite (format_from_placeholder v t) by done.
    rewrite (IH p vs ts') by (done || by injection Hlen).
    by rewrite !append_assoc.
Qed.

Lemma format_from_placeholder_missing rest mapping out :
  format_from Text ("%s" +:+ rest) [] mapping out = Some (Raise TypeError).
Proof. done. Qed.

Lemma format_from_arity pieces : ∀ head vs out,
  literal head = true →
  Forall (λ p, literal p = true) pieces →
  Forall (λ v, is_Some (py_str v)) vs →
  length vs ≠ length pieces →
  format_from Text (template head pieces) vs None out = Some (Raise TypeError).
Proof.
  induction pieces as [|p pieces IH]; intros head vs out Hhead Hpieces Hvs Hlen.
  - destruct vs as [|v vs]; [done|]. simpl.
    rewrite <- (append_empty_r head).
    by rewrite format_from_literal.
  - inversion Hpieces; subst. simpl.
    rewrite format_from_literal by done.
    destruct vs as [|v vs]; [apply format_from_placeholder_missing|].
    inversion Hvs as [|? ? [t Ht] Hvs']; subst.
    rewrite (format_from_placeholder v t) by done.
    apply IH; [done..|]. simpl in Hlen. congruence.
Qed.

Lemma format_from_key k : ∀ acc rest pending mapping out,
  key_text k = true →
  format_from (Key 1 acc) (k +:+ rest) pending mapping out =
  format_from (Key 1 (acc +:+ k)) rest pending mapping out.
Proof.
  induction k as [|c k IH]; intros acc rest pending mapping out Hk.
  - by rewrite append_empty_l, append_empty_r.
  - simpl in Hk.
    apply andb_prop in Hk as [[Hopen%negb_true_iff Hclose%negb_true_iff]%andb_prop Hk].
    rewrite append_cons. simpl. rewrite Hopen, Hclose, IH by done.
    by rewrite append_assoc.
Qed.

(** One named placeholder: the key is looked up in the mapping and the value
    found is the one pending argument. *)
Lemma format_from_named k rest pending m out :
  key_text k = true →
  format_from Text ("%(" +:+ k +:+ ")s" +:+ rest) pending (Some m) out =
  match subscript m k with
  | Raise e => Some (Raise e)
  | Return v =>
      match py_str v with
      | Some t => format_from Text rest [] (Some m) (out +:+ t)
      | None => None
      end
  end.
Proof.
  intros Hk.
  change ("%(" +:+ k +:+ ")s" +:+ rest)
    with (String "%" (String "(" (k +:+ String ")" (String "s" rest)))).
  simpl. rewrite (format_from_key k "" (String ")" (String "s" rest))) by done.
  rewrite append_empty_l. simpl.
  destruct (subscript m k) as [v|e]; [|done]. simpl.
  by destruct (py_str v).
Qed.

Lemma format_from_named_template kvs pieces : ∀ head ts pending out,
  literal head = true →
  Forall (λ kp, key_text kp.1 = true ∧ literal kp.2 = true) pieces →
  Forall2 (λ kp t, ∃ v, dict_get kvs kp.1 = Some v ∧ py_str v = Some t) pieces ts →
  format_from Text (named_template head pieces) pending (Some (VDict kvs)) out =
  Some (Return (out +:+ filled head ts pieces.*2)).
Proof.
  induction pieces as [|[k p] pieces IH]; intros head ts pending out Hhead Hpieces Hts.
  - inversion Hts; subst. simpl.
    rewrite <- (append_empty_r head) at 1.
    rewrite format_from_literal by done. simpl. by destruct pending.
  - inversion Hpieces as [|? ? [Hk Hp] Hpieces']; subst.
    inversion Hts as [|? t ? ts' (v & Hv & Ht) Hts']; subst. simpl in *.
    rewrite format_from_literal by done.
    rewrite format_from_named by done. simpl. rewrite Hv, Ht.
    rewrite (IH p ts') by done.
    by rewrite !append_assoc.
Qed.

Lemma format_from_missing_key kvs before : ∀ head k p after pending out,
  literal head = true →
  Forall (λ kp, key_text kp.1 = true ∧ literal kp.2 = true ∧
                ∃ v, dict_get kvs kp.1 = Some v ∧ is_Some (py_str v)) before →
  key_text k = true →
  dict_get kvs k = None →
  format_from Text (named_template head (before ++ (k, p) :: after)) pending
    (Some (VDict kvs)) out = Some (Raise KeyError).
Proof.
  induction before as [|[k' p'] before IH]; intros head k p after pending out
    Hhead Hbefore Hk Hmissing; simpl.
  - rewrite format_from_literal by done.
    rewrite format_from_named by done. simpl. by rewrite Hmissing.
  - inversion Hbefore as [|? ? (Hk' & Hp' & v & Hv & [t Ht]) Hbefore']; subst.
    simpl in *.
    rewrite format_from_literal by done.
    rewrite format_from_named by done. simpl. rewrite Hv, Ht.
    by apply IH.
Qed.

Lemma convert_unsupported c v :
  convert c VNone = Some (Raise ValueError) → convert c v = Some (Raise ValueError).
Proof.
  destruct c as [[] [] [] [] [] [] [] []]; simpl; try done;
    intros Hc; discriminate Hc.
Qed.

Lemma pending_nonempty params n :
  py_len params = Return (S n) →
  ∃ v vs, match params with VTuple xs => xs | _ => [params] end = v :: vs.
Proof.
  destruct params as [| | | |xs| | | | |]; eauto.
  destruct xs as [|v xs]; [discriminate|eauto].
Qed.

(** ** Further properties of the statement extraction *)

Section ExtractionExtras.

Variable builtin_format : string → value → result string.

Lemma get_statement_formatted cursor first params rest s n r :
  resolves_to cursor first s →
  py_len params = Return (S n) →
  format s params = Some r →
  get_statement builtin_format cursor (first :: params :: rest) = VStr <$> r.
Proof.
  intros Hs Hlen Hformat.
  rewrite (get_statement_resolved _ _ _ _ _ s), Hlen by done. simpl.
  by rewrite Hformat.
Qed.

(** X1: a statement text that is empty or white space only makes
    [get_operation_name] raise [IndexError]. *)
Theorem get_operation_name_blank_statement cursor first rest s :
  resolves_to cursor first s → blank s = true →
  get_operation_name cursor (first :: rest) = Raise IndexError.
Proof. apply get_operation_name_blank. Qed.

(** X2: the operation name never contains white space, and it is not empty
    when the first argument is, or renders to, a text. *)
Theorem get_operation_name_token cursor args t :
  get_operation_name cursor args = Return t →
  solid t = true ∧
  (∀ first rest s, args = first :: rest → resolves_to cursor first s →
                   t ≠ ""%string).
Proof.
  assert (∀ s, match split s with
               | tok :: _ => Return tok
               | [] => Raise IndexError
               end = Return t → solid t = true ∧ t ≠ ""%string) as Htoken.
  { intros s Hs. pose proof (split_from_tokens s "" eq_refl) as Htoks.
    unfold split in Hs. destruct (split_from "" s) as [|tok toks]; [done|].
    injection Hs as <-. by inversion Htoks. }
  destruct args as [|first rest].
  { intros [= <-]. split; [done|]. by intros. }
  intros Hname. split.
  - destruct first as [| | |s| | | |c| |]; simpl in Hname;
      try (by injection Hname as <-).
    + by apply (Htoken s).
    + destruct (as_string c cursor) as [s|]; [|done]. by apply (Htoken s).
  - intros first' rest' s [= <- <-] Hs.
    rewrite (get_operation_name_resolved cursor first rest s) in Hname by done.
    by apply (Htoken s).
Qed.

(** X3: a composed statement that cannot be rendered makes both extraction
    functions raise the error of the rendering, whatever the parameters. *)
Theorem extraction_propagates_rendering_error cursor c rest e :
  as_string c cursor = Raise e →
  get_operation_name cursor (VComposed c :: rest) = Raise e ∧
  get_statement builtin_format cursor (VComposed c :: rest) = Raise e.
Proof. intros Hc. simpl. by rewrite Hc. Qed.

(** X4: when the second argument has no length ([None], a number, a class),
    [get_statement] raises [TypeError] although the statement needs no
    substitution. *)
Theorem get_statement_unsized_parameters cursor first params rest :
  renders cursor first →
  sized params = false →
  get_statement builtin_format cursor (first :: params :: rest) = Raise TypeError.
Proof.
  intros Hfirst Hparams. simpl.
  assert (py_len params = Raise TypeError) as Hlen by by destruct params.
  destruct first as [| | | | | | |c| |]; simpl; try by rewrite Hlen.
  destruct (Hfirst c eq_refl) as [s ->]. simpl. by rewrite Hlen.
Qed.

(** X5: for a statement without any per-cent sign and a non-empty second
    argument, [get_statement] raises [TypeError] when that argument is a tuple
    or a text, and returns the statement unchanged when it is a list or a
    dictionary. *)
Theorem get_statement_without_placeholder cursor first params rest s n :
  resolves_to cursor first s →
  literal s = true →
  py_len params = Return (S n) →
  get_statement builtin_format cursor (first :: params :: rest) =
  match format_mapping params with
  | Some _ => Return (VStr s)
  | None => Raise TypeError
  end.
Proof.
  intros Hs Hliteral Hlen.
  destruct (pending_nonempty params n Hlen) as (v & vs & Hpending).
  rewrite (get_statement_formatted cursor first params rest s n
             (match format_mapping params with
              | Some _ => Return s
              | None => Raise TypeError
              end)); [by destruct (format_mapping params) | done..|].
  unfold format. rewrite Hpending. rewrite <- (append_empty_r s) at 1.
  rewrite format_from_literal by done. simpl.
  by destruct (format_mapping params).
Qed.

(** X6: when the number of parameters in the tuple differs from the number of
    [%s] placeholders, [get_statement] raises [TypeError]. *)
Theorem get_statement_arity_mismatch cursor first rest head pieces v vs :
  resolves_to cursor first (template head pieces) →
  literal head = true →
  Forall (λ p, literal p = true) pieces →
  Forall (λ x, is_Some (py_str x)) (v :: vs) →
  length (v :: vs) ≠ length pieces →
  get_statement builtin_format cursor (first :: VTuple (v :: vs) :: rest) =
  Raise TypeError.
Proof.
  intros Hs Hhead Hpieces Hvs Hlen.
  rewrite (get_statement_formatted cursor first _ rest (template head pieces)
             (length vs) (Raise TypeError)); [done..|].
  unfold format. simpl format_mapping. by apply format_from_arity.
Qed.

(** X7: a second argument that is not a tuple is one parameter: with one
    [%s] placeholder it is substituted as a whole, with more placeholders
    [get_statement] raises [TypeError]. *)
Theorem get_statement_single_parameter cursor first params rest head p pieces n t :
  resolves_to cursor first (template head (p :: pieces)) →
  literal head = true →
  Forall (λ q, literal q = true) (p :: pieces) →
  (∀ xs, params ≠ VTuple xs) →
  py_len params = Return (S n) →
  py_str params = Some t →
  get_statement builtin_format cursor (first :: params :: rest) =
  match pieces with
  | [] => Return (VStr (head +:+ t +:+ p))
  | _ => Raise TypeError
  end.
Proof.
  intros Hs Hhead Hpieces Htuple Hlen Ht.
  inversion Hpieces as [|? ? Hp Hpieces']; subst.
  rewrite (get_statement_formatted cursor first params rest
             (template head (p :: pieces)) n
             (match pieces with
              | [] => Return (head +:+ t +:+ p)
              | _ => Raise TypeError
              end)); [by destruct pieces | done..|].
  unfold format.
  assert (match params with VTuple xs => xs | _ => [params] end = [params])
    as -> by (destruct params as [| | | |xs| | | | |]; try done;
              by destruct (Htuple xs)).
  simpl. rewrite format_from_literal by done.
  rewrite (format_from_placeholder params t) by done.
  destruct pieces as [|q pieces]; simpl.
  - rewrite <- (append_empty_r p) at 1.
    rewrite format_from_literal by done. simpl. by rewrite !append_assoc.
  - inversion Hpieces'; subst. rewrite format_from_literal by done.
    apply format_from_placeholder_missing.
Qed.

(** X8: with a non-empty dictionary of parameters, each named placeholder
    [%(key)s] is replaced by the text of the value stored under its key. *)
Theorem get_statement_named_placeholders cursor first rest head pieces kv kvs ts :
  resolves_to cursor first (named_template head pieces) →
  literal head = true →
  Forall (λ kp, key_text kp.1 = true ∧ literal kp.2 = true) pieces →
  Forall2 (λ kp t, ∃ v, dict_get (kv :: kvs) kp.1 = Some v ∧ py_str v = Some t)
    pieces ts →
  get_statement builtin_format cursor (first :: VDict (kv :: kvs) :: rest) =
  Return (VStr (filled head ts pieces.*2)).
Proof.
  intros Hs Hhead Hpieces Hts.
  rewrite (get_statement_formatted cursor first _ rest (named_template head pieces)
             (length kvs) (Return (filled head ts pieces.*2))); [done..|].
  unfold format. simpl format_mapping.
  by rewrite (format_from_named_template (kv :: kvs) pieces head ts).
Qed.

(** X9: a named placeholder whose key is not in the dictionary of parameters
    makes [get_statement] raise [KeyError]. *)
Theorem get_statement_missing_key cursor first rest head before k p after kv kvs :
  resolves_to cursor first (named_template head (before ++ (k, p) :: after)) →
  literal head = true →
  Forall (λ kp, key_text kp.1 = true ∧ literal kp.2 = true ∧
                ∃ v, dict_get (kv :: kvs) kp.1 = Some v ∧ is_Some (py_str v))
    before →
  key_text k = true →
  dict_get (kv :: kvs) k = None →
  get_statement builtin_format cursor (first :: VDict (kv :: kvs) :: rest) =
  Raise KeyError.
Proof.
  intros Hs Hhead Hbefore Hk Hmissing.
  rewrite (get_statement_formatted cursor first _ rest
             (named_template head (before ++ (k, p) :: after))
             (length kvs) (Raise KeyError)); [done..|].
  unfold format. simpl format_mapping. by apply format_from_missing_key.
Qed.

(** X10: a named placeholder with parameters that are a tuple or a text makes
    [get_statement] raise [TypeError]. *)
Theorem get_statement_named_without_mapping cursor first params rest head tail n :
  resolves_to cursor first (head +:+ "%(" +:+ tail) →
  literal head = true →
  format_mapping params = None →
  py_len params = Return (S n) →
  get_statement builtin_format cursor (first :: params :: rest) = Raise TypeError.
Proof.
  intros Hs Hhead Hmapping Hlen.
  rewrite (get_statement_formatted cursor first params rest
             (head +:+ "%(" +:+ tail) n (Raise TypeError)); [done..|].
  unfold format. rewrite Hmapping. by rewrite format_from_literal.
Qed.

(** X11: a statement that ends with a per-cent sign makes [get_statement]
    raise [ValueError] whenever the parameters are not empty. *)
Theorem get_statement_trailing_percent cursor first params rest head n :
  resolves_to cursor first (head +:+ "%") →
  literal head = true →
  py_len params = Return (S n) →
  get_statement builtin_format cursor (first :: params :: rest) = Raise ValueError.
Proof.
  intros Hs Hhead Hlen.
  rewrite (get_statement_formatted cursor first params rest
             (head +:+ "%") n (Raise ValueError)); [done..|].
  unfold format. by rewrite format_from_literal.
Qed.

(** X12: a per-cent sign followed by a character that is no conversion type
    makes [get_statement] raise [ValueError] whenever the parameters are not
    empty. *)
Theorem get_statement_unsupported_conversion cursor first params rest head c tail n :
  resolves_to cursor first (head +:+ "%" +:+ String c tail) →
  literal head = true →
  unsupported_conversion c = true →
  py_len params = Return (S n) →
  get_statement builtin_format cursor (first :: params :: rest) = Raise ValueError.
Proof.
  intros Hs Hhead Hc Hlen.
  destruct (pending_nonempty params n Hlen) as (v & vs & Hpending).
  rewrite (get_statement_formatted cursor first params rest
             (head +:+ "%" +:+ String c tail) n (Raise ValueError)); [done..|].
  unfold format. rewrite Hpending, format_from_literal by done.
  unfold unsupported_conversion in Hc.
  apply andb_prop in Hc as [[[Hpercent%negb_true_iff Hopen%negb_true_iff]%andb_prop
                              Hmodifier%negb_true_iff]%andb_prop Hconvert].
  change ("%" +:+ String c tail) with (String "%" (String c tail)).
  simpl. rewrite Hpercent, Hopen, Hmodifier. simpl.
  rewrite (convert_unsupported c v); [done|].
  by destruct (convert c VNone) as [[|[]]|].
Qed.

(** X13: when every per-cent sign of the literal text is doubled, the
    substitution of a tuple of parameters gives the literal text back with
    each [%s] placeholder replaced by its parameter. *)
Theorem get_statement_escaped cursor first rest head pieces v vs ts :
  resolves_to cursor first (template (escape head) (escape <$> pieces)) →
  Forall2 (λ x t, py_str x = Some t) (v :: vs) ts →
  length (v :: vs) = length pieces →
  get_statement builtin_format cursor (first :: VTuple (v :: vs) :: rest) =
  Return (VStr (filled head ts pieces)).
Proof.
  intros Hs Hvs Hlen.
  rewrite (get_statement_formatted cursor first _ rest
             (template (escape head) (escape <$> pieces)) (length vs)
             (Return (filled head ts pieces))); [done..|].
  unfold format. simpl format_mapping.
  by rewrite (format_from_escaped_template pieces head (v :: vs) ts "").
Qed.

End ExtractionExtras.

(** ** Further properties of the per-connection interface *)

Section ConnectionExtras.

Variable __version__ : string.

Lemma reachable_app_inv connection h0 ks1 ks2 h :
  reachable __version__ connection h0 (ks1 ++ ks2) h →
  ∃ h1, reachable __version__ connection h0 ks1 h1 ∧
        reachable __version__ connection h1 ks2 h.
Proof.
  revert h. induction ks2 as [|k ks2 IH] using rev_ind; intros h Hreach.
  - rewrite app_nil_r in Hreach. exists h. split; [done|constructor].
  - rewrite app_assoc in Hreach.
    inversion Hreach as [Hnil | ks k' h1 h' r Hreach' Hcall Heq].
    { by destruct (ks1 ++ ks2). }
    apply app_inj_tail in Heq as [-> ->].
    destruct (IH h1 Hreach') as (h2 & Hleft & Hright).
    exists h2. split; [done|]. by eapply reachable_snoc.
Qed.

Lemma reachable_cons_inv connection h0 k ks h :
  reachable __version__ connection h0 (k :: ks) h →
  ∃ r h1, run_call __version__ connection k h0 = (Return r, h1) ∧
          reachable __version__ connection h1 ks h.
Proof.
  intros (h1 & Hfirst & Hrest)%(reachable_app_inv connection h0 [k] ks).
  inversion Hfirst as [Hnil | ks' k' h' h'' r Hreach Hcall Heq].
  apply (app_inj_tail ks' [] k' k) in Heq as [-> ->].
  inversion Hreach as [Hnil | ks'' ? ? ? ? ? ? Heq]; [subst|by destruct ks''].
  eauto.
Qed.

(** X14: on an object without cursor factory, [instrument_connection] raises
    [AttributeError] and leaves the heap as it is: no marker is set and no
    class is created. *)
Theorem instrument_connection_without_factory c tracer_provider h attrs :
  h !! c = Some (Instance attrs) →
  attrs !! "cursor_factory" = None →
  instrument_connection __version__ (VRef c) tracer_provider h =
  (Raise AttributeError, h).
Proof.
  intros Hc Hcf. unfold instrument_connection, mbind, M_bind.
  by rewrite (getattr_instance c attrs), Hcf.
Qed.

(** X15: [uninstrument_connection] is idempotent: a second call leaves the
    heap that the first call produced. *)
Theorem uninstrument_connection_idempotent c h attrs :
  h !! c = Some (Instance attrs) →
  ∃ h1, uninstrument_connection (VRef c) h = (Return (VRef c), h1) ∧
        uninstrument_connection (VRef c) h1 = (Return (VRef c), h1).
Proof.
  intros Hc. eexists. split; [by apply uninstrument_connection_spec|].
  rewrite (uninstrument_connection_spec c _ _ (lookup_insert_eq _ _ _)).
  rewrite lookup_insert_ne by done.
  by rewrite !insert_insert_eq.
Qed.

(** X16: [uninstrument_connection] changes nothing but the cursor factory of
    the connection: the marker and every other attribute stay, and so does
    every other object. *)
Theorem uninstrument_connection_frame c h attrs :
  h !! c = Some (Instance attrs) →
  ∃ h' attrs',
    uninstrument_connection (VRef c) h = (Return (VRef c), h') ∧
    h' !! c = Some (Instance attrs') ∧
    (∀ name, name ≠ "cursor_factory"%string → attrs' !! name = attrs !! name) ∧
    (∀ l, l ≠ c → h' !! l = h !! l).
Proof.
  intros Hc. eexists _, _. split; [by apply uninstrument_connection_spec|].
  split; [apply lookup_insert_eq|]. split.
  - intros name Hname. by rewrite lookup_insert_ne.
  - intros l Hl. by rewrite lookup_insert_ne.
Qed.

(** X17: [instrument_connection] installs a new class that derives from the
    stock cursor class, whatever cursor factory the connection had, and that
    traces with a new integration context for [postgresql] holding the given
    tracer provider; the former cursor factory is kept in the marker. *)
Theorem instrument_connection_installs c tracer_provider h attrs original :
  h !! c = Some (Instance attrs) →
  attrs !! "cursor_factory" = Some original →
  ∃ h' traced context,
    instrument_connection __version__ (VRef c) tracer_provider h =
      (Return (VRef c), h') ∧
    cursor_factory_of h' c = Some (VRef traced) ∧
    marker_of h' c = Some original ∧
    h' !! traced = Some (TracedCursorFactory VPgCursor (CursorTracer (VRef context))) ∧
    h' !! context = Some (own_integration __version__ tracer_provider) ∧
    h !! traced = None ∧ h !! context = None.
Proof.
  intros Hc Hcf.
  destruct (instrument_connection_spec __version__ c tracer_provider h attrs
              original Hc Hcf) as (l1 & l2 & Hl1 & Hl2 & Hne & Hspec).
  assert (c ≠ l1) as Hc1 by congruence. assert (c ≠ l2) as Hc2 by congruence.
  eexists _, l2, l1. split; [exact Hspec|].
  unfold cursor_factory_of, marker_of. rewrite attrs_of_insert. simpl.
  split; [apply lookup_insert_eq|]. split.
  { rewrite lookup_insert_ne by done. apply lookup_insert_eq. }
  split.
  { rewrite lookup_insert_ne by done. apply lookup_insert_eq. }
  split; [|done].
  rewrite lookup_insert_ne, lookup_insert_ne by done. apply lookup_insert_eq.
Qed.

(** X18: [instrument_connection] changes only the cursor factory and the
    marker of the connection, and no other object that exists. *)
Theorem instrument_connection_frame c tracer_provider h attrs original :
  h !! c = Some (Instance attrs) →
  attrs !! "cursor_factory" = Some original →
  ∃ h' attrs',
    instrument_connection __version__ (VRef c) tracer_provider h =
      (Return (VRef c), h') ∧
    h' !! c = Some (Instance attrs') ∧
    (∀ name, name ≠ "cursor_factory"%string → name ≠ _OTEL_CURSOR_FACTORY_KEY →
             attrs' !! name = attrs !! name) ∧
    (∀ l o, l ≠ c → h !! l = Some o → h' !! l = Some o).
Proof.
  intros Hc Hcf.
  destruct (instrument_connection_spec __version__ c tracer_provider h attrs
              original Hc Hcf) as (l1 & l2 & Hl1 & Hl2 & Hne & Hspec).
  eexists _, _. split; [exact Hspec|].
  split; [apply lookup_insert_eq|]. split.
  - intros name Hname Hkey. by rewrite !lookup_insert_ne.
  - intros l o Hl Ho.
    rewrite lookup_insert_ne by done.
    rewrite lookup_insert_ne by congruence.
    rewrite lookup_insert_ne by congruence.
    by rewrite lookup_insert_ne.
Qed.

(** X19: on a connection that has a cursor factory, no sequence of calls of
    [instrument_connection] and [uninstrument_connection] raises. *)
Theorem connection_calls_never_raise c h0 attrs0 original ks :
  h0 !! c = Some (Instance attrs0) →
  attrs0 !! "cursor_factory" = Some original →
  ∃ h, reachable __version__ (VRef c) h0 ks h.
Proof. apply reachable_total. Qed.

(** X20: any number of rounds of [instrument_connection] followed by
    [uninstrument_connection] leaves the cursor factory the connection had
    at first; after the first round the marker holds that factory too. *)
Theorem paired_rounds_restore tracer_providers : ∀ c h0 attrs0 original h,
  h0 !! c = Some (Instance attrs0) →
  attrs0 !! "cursor_factory" = Some original →
  reachable __version__ (VRef c) h0 (rounds tracer_providers) h →
  cursor_factory_of h c = Some original ∧
  (tracer_providers ≠ [] → marker_of h c = Some original).
Proof.
  induction tracer_providers as [|tp tps IH]; intros c h0 attrs0 original h Hc Hcf Hreach.
  - inversion Hreach as [Hnil | ks ? ? ? ? ? ? Heq]; [subst|by destruct ks].
    split; [|done]. unfold cursor_factory_of, attrs_of. by rewrite Hc.
  - simpl in Hreach.
    apply reachable_cons_inv in Hreach as (r1 & h1 & Hfirst & Hreach).
    apply reachable_cons_inv in Hreach as (r2 & h2 & Hsecond & Hreach).
    simpl in Hfirst, Hsecond.
    destruct (instrument_connection_spec __version__ c tp h0 attrs0 original
                Hc Hcf) as (l1 & l2 & _ & _ & _ & Hspec).
    rewrite Hspec in Hfirst. injection Hfirst as _ <-.
    rewrite (uninstrument_connection_spec c _ _ (lookup_insert_eq _ _ _)) in Hsecond.
    injection Hsecond as _ <-.
    rewrite lookup_insert_ne, lookup_insert_eq in Hreach by done.
    simpl in Hreach.
    match type of Hreach with
    | reachable _ _ (<[c := Instance ?attrs2]> ?h1) _ _ =>
        assert (attrs2 !! "cursor_factory" = Some original) as Hcf2
          by apply lookup_insert_eq;
        assert (attrs2 !! _OTEL_CURSOR_FACTORY_KEY = Some original) as Hmarker2
          by (rewrite !lookup_insert_ne by done; apply lookup_insert_eq);
        destruct (IH c (<[c := Instance attrs2]> h1) attrs2 original h
                    (lookup_insert_eq _ _ _) Hcf2 Hreach) as [Hfactory Hmarker]
    end.
    split; [done|]. intros _.
    destruct tps as [|tp' tps]; [|by apply Hmarker].
    inversion Hreach as [Hnil | ks ? ? ? ? ? ? Heq]; [subst|by destruct ks].
    unfold marker_of. by rewrite attrs_of_insert.
Qed.

(** X21: whenever [_new_cursor_factory] returns, its result is a class that
    did not exist before, and every object that existed is unchanged. *)
Theorem new_cursor_factory_result db_api base_factory tracer_provider h v h' :
  _new_cursor_factory __version__ db_api base_factory tracer_provider h =
    (Return v, h') →
  is_traced h' v = true ∧
  (∃ l, v = VRef l ∧ h !! l = None) ∧
  (∀ l o, h !! l = Some o → h' !! l = Some o).
Proof.
  assert (∀ base tracer h1 v1 h2,
            new_class base tracer h1 = (Return v1, h2) →
            is_traced h2 v1 = true ∧ (∃ l, v1 = VRef l ∧ h1 !! l = None) ∧
            (∀ l o, h1 !! l = Some o → h2 !! l = Some o)) as Hclass.
  { intros base tracer h1 v1 h2. unfold new_class.
    destruct (is_class h1 base); [|done].
    destruct (alloc_fresh (TracedCursorFactory base tracer) h1) as (l & Hl & ->).
    intros [= <- <-]. split; [|split].
    - unfold is_traced. by rewrite lookup_insert_eq.
    - eauto.
    - intros l' o Ho. rewrite lookup_insert_ne by congruence. done. }
  unfold _new_cursor_factory, mbind, M_bind.
  destruct (truthy db_api); cbn [negb].
  - apply Hclass.
  - unfold DatabaseApiIntegration.
    destruct (alloc_fresh (own_integration __version__ tracer_provider) h)
      as (l1 & Hl1 & Halloc).
    fold (own_integration __version__ tracer_provider). rewrite Halloc.
    intros (Htraced & (l & -> & Hl) & Hframe)%Hclass.
    apply lookup_insert_None in Hl as [Hl Hne].
    split; [done|]. split; [eauto|].
    intros l' o Ho. apply Hframe. rewrite lookup_insert_ne by congruence. done.
Qed.

End ConnectionExtras.

Section WrappedConnectionExtras.

Variable __version__ : string.
Variable get_connection_attributes : value → value → M unit.

Lemma new_cursor_factory_kw_db_api (self : loc) base :
  _new_cursor_factory_kw __version__
    (if truthy base
     then <["base_factory" := base]> ({["db_api" := VRef self]} : gmap string value)
     else {["db_api" := VRef self]}) =
  _new_cursor_factory __version__ (VRef self) base VNone.
Proof.
  unfold _new_cursor_factory_kw. destruct (truthy base) eqn:Htruthy.
  - rewrite lookup_insert_ne, lookup_singleton_eq by done.
    rewrite lookup_insert_eq.
    rewrite lookup_insert_ne, lookup_singleton_ne by done. done.
  - rewrite lookup_singleton_eq, !lookup_singleton_ne by done. simpl.
    unfold _new_cursor_factory. by rewrite Htruthy.
Qed.

(** X22: a [cursor_factory] keyword argument that is false ([None], for
    instance) counts as none: the traced class derives from the stock cursor
    class and replaces it in the keyword arguments of the real [connect]. *)
Theorem wrapped_connection_falsy_factory (self : loc) connect_method args kwargs
    h supplied :
  kwargs !! "cursor_factory" = Some supplied →
  truthy supplied = false →
  ∃ l, h !! l = None ∧
    wrapped_connection __version__ get_connection_attributes (VRef self)
      connect_method args kwargs h =
      (connection ← connect_method args (<["cursor_factory" := VRef l]> kwargs);
       get_connection_attributes (VRef self) connection;;
       mret connection)
        (<[l := TracedCursorFactory VPgCursor (CursorTracer (VRef self))]> h).
Proof.
  intros Hsupplied Hfalsy.
  destruct (new_cursor_factory_with __version__ (VRef self) supplied h)
    as (l & Hl & Hnew); [done | by rewrite Hfalsy |].
  rewrite Hfalsy in Hnew.
  exists l. split; [done|].
  unfold wrapped_connection. unfold mbind at 1. unfold M_bind at 1.
  rewrite Hsupplied. simpl default.
  rewrite new_cursor_factory_kw_db_api, Hnew. by rewrite insert_delete_eq.
Qed.

(** X23: when the real [connect] fails, [wrapped_connection] raises the same
    exception; the traced class has been created and nothing else changed
    beyond what [connect] did. *)
Theorem wrapped_connection_connect_failure (self : loc) connect_method args kwargs
    h base e :
  (kwargs !! "cursor_factory" = Some base ∧ truthy base = true) ∨
  (kwargs !! "cursor_factory" = None ∧ base = VPgCursor) →
  is_class h base = true →
  (∀ kwargs' h', connect_method args kwargs' h' = (Raise e, h')) →
  ∃ l, h !! l = None ∧
    wrapped_connection __version__ get_connection_attributes (VRef self)
      connect_method args kwargs h =
    (Raise e, <[l := TracedCursorFactory base (CursorTracer (VRef self))]> h).
Proof.
  intros Hsupplied Hbase Hconnect.
  set (supplied := default VNone (kwargs !! "cursor_factory")).
  assert ((if truthy supplied then supplied else VPgCursor) = base) as Hres.
  { unfold supplied.
    destruct Hsupplied as [[-> Htruthy] | [-> ->]]; simpl; [by rewrite Htruthy|done]. }
  destruct (new_cursor_factory_with __version__ (VRef self) supplied h)
    as (l & Hl & Hnew); [done | by rewrite Hres |].
  rewrite Hres in Hnew.
  exists l. split; [done|].
  unfold wrapped_connection. unfold mbind at 1. unfold M_bind at 1.
  fold supplied. rewrite new_cursor_factory_kw_db_api, Hnew.
  unfold mbind, M_bind. by rewrite Hconnect.
Qed.

End WrappedConnectionExtras.

(** ** The further properties at sample inputs *)

Lemma get_operation_name_blank_statement_witness :
  blank (String "009" (String "010" " ")) = true ∧
  get_operation_name 1%positive [VStr (String "009" (String "010" " "))]
    = Raise IndexError.
Proof.
  split; [reflexivity|].
  apply (get_operation_name_blank_statement 1%positive _ []
           (String "009" (String "010" " ")));
    [left; reflexivity | reflexivity].
Defined.

Lemma get_operation_name_token_witness :
  get_operation_name 1%positive [VStr "  select * from t"] = Return "select"%string ∧
  solid "select" = true.
Proof.
  split; [reflexivity|].
  apply (get_operation_name_token 1%positive [VStr "  select * from t"] "select").
  reflexivity.
Defined.

Lemma extraction_propagates_rendering_error_witness :
  get_operation_name 1%positive [VComposed broken_statement]
    = Raise (LibraryError "ProgrammingError") ∧
  get_statement no_builtin_format 1%positive [VComposed broken_statement]
    = Raise (LibraryError "ProgrammingError").
Proof.
  apply (extraction_propagates_rendering_error no_builtin_format 1%positive
           broken_statement []).
  reflexivity.
Defined.

Lemma get_statement_unsized_parameters_witness :
  sized VNone = false ∧
  get_statement no_builtin_format 1%positive [VStr "SELECT 1"; VNone]
    = Raise TypeError.
Proof.
  split; [reflexivity|].
  apply get_statement_unsized_parameters; [|reflexivity].
  intros c Hc. discriminate Hc.
Defined.

Lemma get_statement_without_placeholder_witness :
  get_statement no_builtin_format 1%positive [VStr "SELECT 1"; VTuple [VInt 1]]
    = Raise TypeError ∧
  get_statement no_builtin_format 1%positive
    [VStr "SELECT 1"; VList [VTuple [VInt 1]]]
    = Return (VStr "SELECT 1").
Proof.
  split.
  - apply (get_statement_without_placeholder no_builtin_format 1%positive
             (VStr "SELECT 1") (VTuple [VInt 1]) [] "SELECT 1" 0);
      [left; reflexivity | reflexivity | reflexivity].
  - apply (get_statement_without_placeholder no_builtin_format 1%positive
             (VStr "SELECT 1") (VList [VTuple [VInt 1]]) [] "SELECT 1" 0);
      [left; reflexivity | reflexivity | reflexivity].
Defined.

Lemma get_statement_arity_mismatch_witness :
  get_statement no_builtin_format 1%positive [VStr "SELECT %s, %s"; VTuple [VInt 1]]
    = Raise TypeError ∧
  get_statement no_builtin_format 1%positive
    [VStr "SELECT %s"; VTuple [VInt 1; VInt 2]]
    = Raise TypeError.
Proof.
  split.
  - apply (get_statement_arity_mismatch no_builtin_format 1%positive
             (VStr "SELECT %s, %s") [] "SELECT "%string
             [", "%string; ""%string] (VInt 1) []);
      [left; reflexivity | reflexivity | repeat constructor
      | repeat constructor; by eexists | simpl; lia].
  - apply (get_statement_arity_mismatch no_builtin_format 1%positive
             (VStr "SELECT %s") [] "SELECT "%string [""%string] (VInt 1) [VInt 2]);
      [left; reflexivity | reflexivity | repeat constructor
      | repeat constructor; by eexists | simpl; lia].
Defined.

Lemma get_statement_single_parameter_witness :
  get_statement no_builtin_format 1%positive
    [VStr "INSERT INTO t VALUES (%s)"; VList [VTuple [VInt 1]; VTuple [VInt 2]]]
    = Return (VStr "INSERT INTO t VALUES ([(1,), (2,)])") ∧
  get_statement no_builtin_format 1%positive
    [VStr "INSERT INTO t VALUES (%s, %s)"; VList [VInt 1; VInt 2]]
    = Raise TypeError.
Proof.
  split.
  - apply (get_statement_single_parameter no_builtin_format 1%positive
             (VStr "INSERT INTO t VALUES (%s)")
             (VList [VTuple [VInt 1]; VTuple [VInt 2]]) []
             "INSERT INTO t VALUES ("%string ")"%string [] 1
             "[(1,), (2,)]"%string);
      [left; reflexivity | reflexivity | repeat constructor
      | intros xs Hxs; discriminate Hxs | reflexivity | reflexivity].
  - apply (get_statement_single_parameter no_builtin_format 1%positive
             (VStr "INSERT INTO t VALUES (%s, %s)")
             (VList [VInt 1; VInt 2]) []
             "INSERT INTO t VALUES ("%string ", "%string [")"%string] 1
             "[1, 2]"%string);
      [left; reflexivity | reflexivity | repeat constructor
      | intros xs Hxs; discriminate Hxs | reflexivity | reflexivity].
Defined.

Lemma get_statement_named_placeholders_witness :
  get_statement no_builtin_format 1%positive
    [VStr "SELECT %(a)s, %(b)s";
     VDict [("b"%string, VStr "x"); ("a"%string, VInt 1)]]
    = Return (VStr "SELECT 1, x").
Proof.
  apply (get_statement_named_placeholders no_builtin_format 1%positive
           (VStr "SELECT %(a)s, %(b)s") [] "SELECT "%string
           [("a"%string, ", "%string); ("b"%string, ""%string)]
           ("b"%string, VStr "x") [("a"%string, VInt 1)]
           ["1"%string; "x"%string]);
    [left; reflexivity | reflexivity | repeat constructor |].
  repeat constructor.
  - by exists (VInt 1).
  - by exists (VStr "x").
Defined.

Lemma get_statement_missing_key_witness :
  get_statement no_builtin_format 1%positive
    [VStr "SELECT %(a)s, %(b)s"; VDict [("a"%string, VInt 1)]]
    = Raise KeyError.
Proof.
  apply (get_statement_missing_key no_builtin_format 1%positive
           (VStr "SELECT %(a)s, %(b)s") [] "SELECT "%string
           [("a"%string, ", "%string)] "b"%string ""%string []
           ("a"%string, VInt 1) []);
    [left; reflexivity | reflexivity | | reflexivity | reflexivity].
  repeat constructor. exists (VInt 1). split; [reflexivity|]. by eexists.
Defined.

Lemma get_statement_named_without_mapping_witness :
  get_statement no_builtin_format 1%positive
    [VStr "SELECT %(a)s"; VTuple [VInt 1]]
    = Raise TypeError.
Proof.
  apply (get_statement_named_without_mapping no_builtin_format 1%positive
           (VStr "SELECT %(a)s") (VTuple [VInt 1]) []
           "SELECT "%string "a)s"%string 0);
    [left; reflexivity | reflexivity | reflexivity | reflexivity].
Defined.

Lemma get_statement_trailing_percent_witness :
  get_statement no_builtin_format 1%positive [VStr "SELECT 100%"; VList [VInt 1]]
    = Raise ValueError.
Proof.
  apply (get_statement_trailing_percent no_builtin_format 1%positive
           (VStr "SELECT 100%") (VList [VInt 1]) [] "SELECT 100"%string 0);
    [left; reflexivity | reflexivity | reflexivity].
Defined.

Lemma get_statement_unsupported_conversion_witness :
  unsupported_conversion "'" = true ∧
  get_statement no_builtin_format 1%positive
    [VStr "SELECT * FROM t WHERE name LIKE 'a%' AND id = %s"; VTuple [VInt 1]]
    = Raise ValueError.
Proof.
  split; [reflexivity|].
  apply (get_statement_unsupported_conversion no_builtin_format 1%positive
           (VStr "SELECT * FROM t WHERE name LIKE 'a%' AND id = %s")
           (VTuple [VInt 1]) []
           "SELECT * FROM t WHERE name LIKE 'a"%string "'"%char
           " AND id = %s"%string 0);
    [left; reflexivity | reflexivity | reflexivity | reflexivity].
Defined.

Lemma get_statement_escaped_witness :
  get_statement no_builtin_format 1%positive
    [VStr "SELECT * FROM t WHERE name LIKE 'a%%' AND id = %s"; VTuple [VInt 1]]
    = Return (VStr "SELECT * FROM t WHERE name LIKE 'a%' AND id = 1").
Proof.
  apply (get_statement_escaped no_builtin_format 1%positive
           (VStr "SELECT * FROM t WHERE name LIKE 'a%%' AND id = %s") []
           "SELECT * FROM t WHERE name LIKE 'a%' AND id = "%string
           [""%string] (VInt 1) [] ["1"%string]);
    [left; reflexivity | repeat constructor | reflexivity].
Defined.

Lemma instrument_connection_without_factory_witness :
  instrument_connection "0.0" (VRef 1%positive) VNone bare_heap =
  (Raise AttributeError, bare_heap).
Proof.
  apply (instrument_connection_without_factory "0.0" 1%positive VNone
           bare_heap ∅); reflexivity.
Defined.

Lemma uninstrument_connection_idempotent_witness :
  ∃ h1, uninstrument_connection (VRef 3%positive) application_heap
          = (Return (VRef 3%positive), h1) ∧
        uninstrument_connection (VRef 3%positive) h1 = (Return (VRef 3%positive), h1).
Proof.
  apply (uninstrument_connection_idempotent 3%positive application_heap
           {[ "cursor_factory"%string := VRef 2%positive ]}).
  reflexivity.
Defined.

Lemma uninstrument_connection_frame_witness :
  ∃ h' attrs',
    uninstrument_connection (VRef 3%positive) application_heap
      = (Return (VRef 3%positive), h') ∧
    h' !! 3%positive = Some (Instance attrs') ∧
    (∀ name, name ≠ "cursor_factory"%string →
             attrs' !! name
             = ({[ "cursor_factory"%string := VRef 2%positive ]} : gmap string value)
                 !! name) ∧
    (∀ l, l ≠ 3%positive → h' !! l = application_heap !! l).
Proof.
  apply (uninstrument_connection_frame 3%positive application_heap
           {[ "cursor_factory"%string := VRef 2%positive ]}).
  reflexivity.
Defined.

Lemma instrument_connection_installs_witness :
  ∃ h' traced context,
    instrument_connection "0.0" (VRef 3%positive) VNone application_heap
      = (Return (VRef 3%positive), h') ∧
    cursor_factory_of h' 3%positive = Some (VRef traced) ∧
    marker_of h' 3%positive = Some (VRef 2%positive) ∧
    h' !! traced = Some (TracedCursorFactory VPgCursor (CursorTracer (VRef context))) ∧
    h' !! context = Some (own_integration "0.0" VNone) ∧
    application_heap !! traced = None ∧ application_heap !! context = None.
Proof.
  apply (instrument_connection_installs "0.0" 3%positive VNone application_heap
           {[ "cursor_factory"%string := VRef 2%positive ]} (VRef 2%positive));
    reflexivity.
Defined.

Lemma instrument_connection_frame_witness :
  ∃ h' attrs',
    instrument_connection "0.0" (VRef 3%positive) VNone application_heap
      = (Return (VRef 3%positive), h') ∧
    h' !! 3%positive = Some (Instance attrs') ∧
    (∀ name, name ≠ "cursor_factory"%string → name ≠ _OTEL_CURSOR_FACTORY_KEY →
             attrs' !! name
             = ({[ "cursor_factory"%string := VRef 2%positive ]} : gmap string value)
                 !! name) ∧
    (∀ l o, l ≠ 3%positive → application_heap !! l = Some o → h' !! l = Some o).
Proof.
  apply (instrument_connection_frame "0.0" 3%positive VNone application_heap
           {[ "cursor_factory"%string := VRef 2%positive ]} (VRef 2%positive));
    reflexivity.
Defined.

Lemma connection_calls_never_raise_witness :
  ∃ h, reachable "0.0" (VRef 1%positive) untouched_heap
         [UninstrumentConnection; InstrumentConnection VNone;
          InstrumentConnection VNone] h.
Proof.
  apply (connection_calls_never_raise "0.0" 1%positive untouched_heap
           {[ "cursor_factory"%string := VPgCursor ]} VPgCursor);
    reflexivity.
Defined.

Lemma paired_rounds_restore_witness :
  ∃ h, reachable "0.0" (VRef 3%positive) application_heap
         (rounds [VNone; VStr "provider"]) h ∧
       cursor_factory_of h 3%positive = Some (VRef 2%positive) ∧
       marker_of h 3%positive = Some (VRef 2%positive).
Proof.
  assert (∃ h, reachable "0.0" (VRef 3%positive) application_heap
                 (rounds [VNone; VStr "provider"]) h) as [h Hreach].
  { eexists.
    eapply (reachable_snoc _ _ _
              [InstrumentConnection VNone; UninstrumentConnection;
               InstrumentConnection (VStr "provider")] UninstrumentConnection).
    - eapply (reachable_snoc _ _ _
                [InstrumentConnection VNone; UninstrumentConnection]
                (InstrumentConnection (VStr "provider"))).
      + eapply (reachable_snoc _ _ _ [InstrumentConnection VNone]
                  UninstrumentConnection).
        * eapply (reachable_snoc _ _ _ [] (InstrumentConnection VNone));
            [apply reachable_nil | vm_compute; reflexivity].
        * vm_compute. reflexivity.
      + vm_compute. reflexivity.
    - vm_compute. reflexivity. }
  exists h. split; [exact Hreach|].
  destruct (paired_rounds_restore "0.0" [VNone; VStr "provider"] 3%positive
              application_heap {[ "cursor_factory"%string := VRef 2%positive ]}
              (VRef 2%positive) h) as [Hfactory Hmarker];
    [reflexivity | reflexivity | exact Hreach |].
  split; [exact Hfactory|]. apply Hmarker. discriminate.
Defined.

Lemma new_cursor_factory_result_witness :
  ∃ v h',
    _new_cursor_factory "0.0" (VRef 1%positive) (VRef 2%positive) VNone
      application_heap = (Return v, h') ∧
    is_traced h' v = true ∧
    (∃ l, v = VRef l ∧ application_heap !! l = None) ∧
    (∀ l o, application_heap !! l = Some o → h' !! l = Some o).
Proof.
  eexists _, _. split; [vm_compute; reflexivity|].
  apply (new_cursor_factory_result "0.0" (VRef 1%positive) (VRef 2%positive)
           VNone application_heap).
  vm_compute. reflexivity.
Defined.

Lemma wrapped_connection_falsy_factory_witness :
  ∃ l, application_heap !! l = None ∧
    let kwargs : gmap string value :=
      {[ "cursor_factory"%string := VNone; "dbname"%string := VStr "Database" ]} in
    wrapped_connection "0.0" skip_connection_attributes (VRef 1%positive)
      recording_connect [] kwargs application_heap =
      (connection ← recording_connect [] (<["cursor_factory" := VRef l]> kwargs);
       skip_connection_attributes (VRef 1%positive) connection;;
       mret connection)
        (<[l := TracedCursorFactory VPgCursor (CursorTracer (VRef 1%positive))]>
           application_heap).
Proof.
  apply (wrapped_connection_falsy_factory "0.0" skip_connection_attributes
           1%positive recording_connect []
           {[ "cursor_factory"%string := VNone; "dbname"%string := VStr "Database" ]}
           application_heap VNone);
    reflexivity.
Defined.

Lemma wrapped_connection_connect_failure_witness :
  ∃ l, application_heap !! l = None ∧
    wrapped_connection "0.0" skip_connection_attributes (VRef 1%positive)
      failing_connect []
      {[ "cursor_factory"%string := VRef 2%positive ]} application_heap =
    (Raise (LibraryError "OperationalError"),
     <[l := TracedCursorFactory (VRef 2%positive) (CursorTracer (VRef 1%positive))]>
       application_heap).
Proof.
  apply (wrapped_connection_connect_failure "0.0" skip_connection_attributes
           1%positive failing_connect []
           {[ "cursor_factory"%string := VRef 2%positive ]} application_heap
           (VRef 2%positive));
    [left; split; reflexivity | reflexivity | reflexivity].
Defined.
